(** * EEROS control blocks: SI units, generic block I/O, Mul, DeMux, ScalableInput

    A shallow embedding of the EEROS headers [SIUnit.hpp], [Blockio.hpp],
    [Mul.hpp], [DeMux.hpp] and [hal/ScalableInput.hpp].

    Conventions.
    - A C++ [int] is a [Z]; the headers only store and compare these values,
      so no wrap-around arithmetic occurs and none is written out.
    - Template value parameters ([N], [M], [Uin], [Uout], the arguments of
      [SIUnit::create]) are ordinary arguments.
    - Template type parameters ([Tin], [Tout], [T], ...) are Section variables.
    - A construct that the compiler rejects is the outcome [IllFormed]; a thrown
      exception is the outcome [Throws]. *)

From Stdlib Require Import ZArith Bool Lia PrimFloat.
From stdpp Require Import base list strings gmap.

(** ** SIUnit (SIUnit.hpp) *)

Module SIUnit.

(** [struct SIUnit]: seven [int] exponents and the radian flag, in the order
    of declaration. *)
Record t : Type := mk {
  length : Z;
  mass : Z;
  time : Z;
  electric_current : Z;
  thermodynamic_temperature : Z;
  amount_of_substance : Z;
  luminous_intensity : Z;
  radian : bool
}.

(** [operator==(const SIUnit&) const = default]: member-wise [==], in the
    order of declaration, joined by [&&]. *)
Definition eqb (a b : t) : bool :=
  (length a =? length b)%Z
  && (mass a =? mass b)%Z
  && (time a =? time b)%Z
  && (electric_current a =? electric_current b)%Z
  && (thermodynamic_temperature a =? thermodynamic_temperature b)%Z
  && (amount_of_substance a =? amount_of_substance b)%Z
  && (luminous_intensity a =? luminous_intensity b)%Z
  && Bool.eqb (radian a) (radian b).

(** One step of a defaulted three-way comparison:
    [if (auto c = x <=> y; c != 0) return c;] and otherwise go on. *)
Definition first_unequal (c rest : comparison) : comparison :=
  match c with
  | Eq => rest
  | Lt => Lt
  | Gt => Gt
  end.

(** [bool <=> bool]: [false] is less than [true]. *)
Definition bool_compare (x y : bool) : comparison :=
  match x, y with
  | false, true => Lt
  | true, false => Gt
  | _, _ => Eq
  end.

(** [operator<=>(const SIUnit&) const -> std::strong_ordering = default]:
    the members are compared in the order of declaration and the first pair
    that differs decides. *)
Definition compare (a b : t) : comparison :=
  first_unequal (length a ?= length b)%Z
  (first_unequal (mass a ?= mass b)%Z
  (first_unequal (time a ?= time b)%Z
  (first_unequal (electric_current a ?= electric_current b)%Z
  (first_unequal (thermodynamic_temperature a ?= thermodynamic_temperature b)%Z
  (first_unequal (amount_of_substance a ?= amount_of_substance b)%Z
  (first_unequal (luminous_intensity a ?= luminous_intensity b)%Z
  (bool_compare (radian a) (radian b)))))))).

(** The relational operators the compiler rewrites to [<=>]. *)
Definition ltb (a b : t) : bool :=
  match compare a b with Lt => true | _ => false end.

Definition leb (a b : t) : bool :=
  match compare a b with Gt => false | _ => true end.

(** [SIUnit::create<Length, Mass, ..., Radian>()].  The body holds no
    [static_assert]: the result of instantiating it is either a failed build
    ([None]) or the unit; as the code stands it is always the unit. *)
Definition create (Length Mass Time Electric_Current Thermodynamic_Temperature
                   Amount_Of_Substance Luminous_Intensity : Z) (Radian : bool)
  : option t :=
  Some (mk Length Mass Time Electric_Current Thermodynamic_Temperature
           Amount_Of_Substance Luminous_Intensity Radian).

(** The check that one revision of [create] carries as a comment:
    [Radian ? (Length == 0 && ... && Luminous_Intensity == 0) : false]. *)
Definition valid_radian (Length Mass Time Electric_Current Thermodynamic_Temperature
                         Amount_Of_Substance Luminous_Intensity : Z) (Radian : bool)
  : bool :=
  if Radian
  then (Length =? 0)%Z && (Mass =? 0)%Z && (Time =? 0)%Z
       && (Electric_Current =? 0)%Z && (Thermodynamic_Temperature =? 0)%Z
       && (Amount_Of_Substance =? 0)%Z && (Luminous_Intensity =? 0)%Z
  else false.

(** [SIUnit::create()] with every template argument defaulted: the
    dimensionless unit. *)
Definition dimensionless : t := mk 0 0 0 0 0 0 0 false.

(** [createArray<N>(index_sequence<Is...>)] and [generateNSizeArray<N>()]:
    [N] copies of [SIUnit::create()]. *)
Definition createArray (N : nat) (Is : list nat) : list t :=
  (fun _ => dimensionless) <$> Is.

Definition generateNSizeArray (N : nat) : list t :=
  createArray N (seq 0 N).

(** The named constants. *)
Definition Watt : t := mk 2 1 (-3) 0 0 0 0 false.
Definition Newton : t := mk 1 1 (-2) 0 0 0 0 false.
Definition Joule : t := mk 2 1 (-2) 0 0 0 0 false.
Definition Volt : t := mk 2 1 (-3) (-1) 0 0 0 false.
Definition Radian : t := mk 0 0 0 0 0 0 0 true.

(** The eight fields as one sequence, the flag as 0 or 1, and the
    lexicographic comparison of two sequences: the ordering as the
    specification words it. *)
Definition fields (u : t) : list Z :=
  [length u; mass u; time u; electric_current u; thermodynamic_temperature u;
   amount_of_substance u; luminous_intensity u; Z.b2z (radian u)].

Fixpoint lexicographic (xs ys : list Z) : comparison :=
  match xs, ys with
  | [], [] => Eq
  | [], _ :: _ => Lt
  | _ :: _, [] => Gt
  | x :: xs', y :: ys' =>
      match (x ?= y)%Z with
      | Eq => lexicographic xs' ys'
      | Lt => Lt
      | Gt => Gt
      end
  end.

End SIUnit.

(** ** Signals, ports and faults (Signal.hpp, Input.hpp, Output.hpp,
       IndexOutOfBoundsFault.hpp) *)

Module Control.

(** A logical timestamp: empty, or a time. *)
Definition timestamp_t : Type := option N.

(** The address of a block ([this], [Block*]). *)
Definition BlockRef : Type := N.

(** The zero of a value type. *)
Class Zero (T : Type) : Type := zero : T.

#[export] Instance Zero_Z : Zero Z := 0%Z.
#[export] Instance Zero_float : Zero float := 0%float.

(** Modelled from the spec: [Signal<T>] (Signal.hpp is not among the sources),
    "a value of declared type T plus a logical timestamp". *)
Record Signal (T : Type) : Type := mkSignal {
  value : T;
  timestamp : timestamp_t
}.
Arguments mkSignal {T} _ _.
Arguments value {T} _.
Arguments timestamp {T} _.

Section SignalOps.
Context {T : Type}.

(** Modelled from the spec: [getValue]/[setValue] and
    [getTimestamp]/[setTimestamp], plain accessors of the two members. *)
Definition getValue (s : Signal T) : T := value s.

Definition setValue (v : T) (s : Signal T) : Signal T :=
  mkSignal v (timestamp s).

Definition getTimestamp (s : Signal T) : timestamp_t := timestamp s.

Definition setTimestamp (ts : timestamp_t) (s : Signal T) : Signal T :=
  mkSignal (value s) ts.

(** Modelled from the spec: [Signal::clear()], which "resets value to the
    type's zero/default and timestamp to empty". *)
Definition clear `{Zero T} (s : Signal T) : Signal T :=
  mkSignal zero None.

End SignalOps.

(** Modelled from the spec: [Input<T, Unit>] and [Output<T, Unit>] (Input.hpp
    and Output.hpp are not among the sources).  A port is tagged with its
    unit, holds exactly one signal and a back-reference to its owner.
    [signal] is the signal that [getSignal()] yields; the slot of an input
    for its upstream output is read by no operation here and is left out.
    [setOwner_calls] is a ghost counter: how often [setOwner] has run on
    this port. *)
Record Port (T : Type) : Type := mkPort {
  U : SIUnit.t;
  signal : Signal T;
  owner : option BlockRef;
  setOwner_calls : nat
}.
Arguments mkPort {T} _ _ _ _.
Arguments U {T} _.
Arguments signal {T} _.
Arguments owner {T} _.
Arguments setOwner_calls {T} _.

Abbreviation Input := Port (only parsing).
Abbreviation Output := Port (only parsing).

Section PortOps.
Context {T : Type}.

(** [p.getSignal()] read. *)
Definition getSignal (p : Port T) : Signal T := signal p.

(** A write through the reference [p.getSignal()]: [p.getSignal().f(...)]. *)
Definition onSignal (f : Signal T -> Signal T) (p : Port T) : Port T :=
  mkPort (U p) (f (signal p)) (owner p) (setOwner_calls p).

(** Modelled from the spec: [setOwner(block)] establishes the back-reference. *)
Definition setOwner (b : BlockRef) (p : Port T) : Port T :=
  mkPort (U p) (signal p) (Some b) (S (setOwner_calls p)).

(** The default constructor [Port<T, Unit>{}]: no owner yet; [fresh] is
    whatever the default constructor of [Signal<T>] leaves. *)
Definition Port_default (fresh : Signal T) (Unit : SIUnit.t) : Port T :=
  mkPort Unit fresh None 0.

(** The constructor [Input<T, Unit>(Block* owner)] that [Mul] uses. *)
Definition Port_owned (fresh : Signal T) (Unit : SIUnit.t) (b : BlockRef) : Port T :=
  mkPort Unit fresh (Some b) 0.

End PortOps.

(** Modelled from the spec: [IndexOutOfBoundsFault] (its header is not among
    the sources).  Both throw sites build it from one [std::string]; that
    message is all the fault is given. *)
Inductive Fault : Type :=
| IndexOutOfBoundsFault (message : string).

Definition message (f : Fault) : string :=
  match f with IndexOutOfBoundsFault m => m end.

(** What a call comes to: it does not compile, it throws, or it returns. *)
Inductive outcome (A : Type) : Type :=
| IllFormed
| Throws (f : Fault)
| Returns (a : A).
Arguments IllFormed {A}.
Arguments Throws {A} _.
Arguments Returns {A} _.

Definition bind {A B : Type} (x : outcome A) (k : A -> outcome B) : outcome B :=
  match x with
  | IllFormed => IllFormed
  | Throws f => Throws f
  | Returns a => k a
  end.

#[export] Instance outcome_bind : MBind outcome := fun A B k x => bind x k.
#[export] Instance outcome_ret : MRet outcome := fun A a => Returns a.

(** [for (uint32_t i = first; i < first + count; i++) body(i)]. *)
Fixpoint for_loop {S : Type} (count first : nat) (body : nat -> S -> outcome S)
  (s : S) : outcome S :=
  match count with
  | O => Returns s
  | Datatypes.S count' => bind (body first s) (for_loop count' (Datatypes.S first) body)
  end.

End Control.

(** ** Blockio (Blockio.hpp) *)

Module Blockio.
Import Control.

(** The four shapes [decltype(generateNInputs())] can take: [struct Empty],
    one port, [std::array<Port<T, SIUnit::create()>, N>] and
    [std::tuple<Port<T, U[Is]>...>]. *)
Inductive ports (P : Type) : Type :=
| Empty
| Single (p : P)
| Array (ps : list P)
| Tuple (ps : list P).
Arguments Empty {P}.
Arguments Single {P} _.
Arguments Array {P} _.
Arguments Tuple {P} _.

(** The ports a storage holds, in index order. *)
Definition ports_list {P : Type} (s : ports P) : list P :=
  match s with
  | Empty => []
  | Single p => [p]
  | Array ps => ps
  | Tuple ps => ps
  end.

(** [std::apply([](auto&&... p) { (f(p), ...); }, s)], and [f(s)] on the
    single port. *)
Definition for_each {P : Type} (f : P -> P) (s : ports P) : ports P :=
  match s with
  | Empty => Empty
  | Single p => Single (f p)
  | Array ps => Array (f <$> ps)
  | Tuple ps => Tuple (f <$> ps)
  end.

(** A reference to a port of a block: the member itself ([in], [out]) or
    one element of it ([in[i]], [std::get<i>(in)]). *)
Inductive ref : Type :=
| Member
| Element (i : nat).

(** The port a reference designates. *)
Definition port_at {P : Type} (s : ports P) (r : ref) : option P :=
  match s, r with
  | Single p, Member => Some p
  | Array ps, Element i => ps !! i
  | Tuple ps, Element i => ps !! i
  | _, _ => None
  end.

(** [class Blockio : public Block]: the members [in] and [out]; [this] and
    the name that [getName()] returns belong to the base class [Block].
    (The stored algorithm [func] is run by [run()] alone and is left out.) *)
Record Blockio (Tin Tout : Type) : Type := mkBlockio {
  this : BlockRef;
  getName : string;
  in_ : ports (Input Tin);
  out : ports (Output Tout)
}.
Arguments mkBlockio {Tin Tout} _ _ _ _.
Arguments this {Tin Tout} _.
Arguments getName {Tin Tout} _.
Arguments in_ {Tin Tout} _.
Arguments out {Tin Tout} _.

Section Blockio.
Context {Tin Tout : Type} `{Zero Tout}.
(** The template arguments [N], [M], [Uin], [Uout].  [N], [M] and a runtime
    index are [uint8_t]: naturals below 256; they are only compared, so the
    bound plays no part below. *)
Variables (N M : nat) (Uin Uout : list SIUnit.t).
(** What the default constructors of [Signal<Tin>] and [Signal<Tout>] leave. *)
Variables (fresh_in : Signal Tin) (fresh_out : Signal Tout).

(** [U[i]] of a [std::array<SIUnit, N>]. *)
Definition unit_at (Us : list SIUnit.t) (i : nat) : SIUnit.t :=
  nth i Us SIUnit.dimensionless.

(** [std::ranges::all_of(U, [](auto e) { return e == SIUnit::create(); })]. *)
Definition allDimensionLess (Us : list SIUnit.t) : bool :=
  forallb (fun e => SIUnit.eqb e SIUnit.dimensionless) Us.

(** [createInputs(std::index_sequence<Is...>)]. *)
Definition createInputs (Is : list nat) : ports (Input Tin) :=
  if allDimensionLess Uin
  then Array (replicate N (Port_default fresh_in SIUnit.dimensionless))
  else Tuple ((fun i => Port_default fresh_in (unit_at Uin i)) <$> Is).

(** [generateNInputs()]. *)
Definition generateNInputs : ports (Input Tin) :=
  if N =? 1 then Single (Port_default fresh_in (unit_at Uin 0))
  else if N =? 0 then Empty
  else createInputs (seq 0 N).

(** [createOutputs(std::index_sequence<Is...>)]. *)
Definition createOutputs (Is : list nat) : ports (Output Tout) :=
  if allDimensionLess Uout
  then Array (replicate M (Port_default fresh_out SIUnit.dimensionless))
  else Tuple ((fun i => Port_default fresh_out (unit_at Uout i)) <$> Is).

(** [generateMOutputs()]. *)
Definition generateMOutputs : ports (Output Tout) :=
  if M =? 1 then Single (Port_default fresh_out (unit_at Uout 0))
  else if M =? 0 then Empty
  else createOutputs (seq 0 M).

(** [initalizeInputsAndOutputs()].  [One<M>]: owner, then clear, on the one
    output.  [Multiple<M>]: the first fold sets every owner, the second
    clears every signal.  The inputs only get their owner. *)
Definition initalizeInputsAndOutputs (b : Blockio Tin Tout) : Blockio Tin Tout :=
  let out1 :=
    if M =? 1 then
      for_each (onSignal clear) (for_each (setOwner (this b)) (out b))
    else if 1 <? M then
      for_each (onSignal clear) (for_each (setOwner (this b)) (out b))
    else out b in
  let in1 :=
    if N =? 1 then for_each (setOwner (this b)) (in_ b)
    else if 1 <? N then for_each (setOwner (this b)) (in_ b)
    else in_ b in
  mkBlockio (this b) (getName b) in1 out1.

(** The constructor [Blockio(f) : func(f), in(generateNInputs()),
    out(generateMOutputs()) { initalizeInputsAndOutputs(); }] of the block
    at address [self] whose base class holds [name]. *)
Definition construct (self : BlockRef) (name : string) : Blockio Tin Tout :=
  initalizeInputsAndOutputs (mkBlockio self name generateNInputs generateMOutputs).

(** [getIn<I>() requires Multiple<N>]: [std::get<I>(in)]. *)
Definition getIn_at (I : nat) (b : Blockio Tin Tout) : outcome ref :=
  if 1 <? N then
    match in_ b with
    | Array ps | Tuple ps => if I <? length ps then Returns (Element I) else IllFormed
    | _ => IllFormed
    end
  else IllFormed.

(** [getIn(uint8_t index) requires Multiple<N>]: [in[index]] only compiles
    on the array. *)
Definition getIn (b : Blockio Tin Tout) (index : nat) : outcome ref :=
  if 1 <? N then
    match in_ b with
    | Array _ =>
        if N <=? index
        then Throws (IndexOutOfBoundsFault
               ("Trying to get inexistent element of input vector in block '"
                +:+ getName b +:+ "'"))
        else Returns (Element index)
    | _ => IllFormed
    end
  else IllFormed.

(** [getIn() requires One<N>]. *)
Definition getIn_one (b : Blockio Tin Tout) : outcome ref :=
  if N =? 1 then Returns Member else IllFormed.

(** [getOut<I>() requires Multiple<M>]: [std::get<I>(out)]. *)
Definition getOut_at (I : nat) (b : Blockio Tin Tout) : outcome ref :=
  if 1 <? M then
    match out b with
    | Array ps | Tuple ps => if I <? length ps then Returns (Element I) else IllFormed
    | _ => IllFormed
    end
  else IllFormed.

(** [getOut(uint8_t index) requires Multiple<M>]. *)
Definition getOut (b : Blockio Tin Tout) (index : nat) : outcome ref :=
  if 1 <? M then
    match out b with
    | Array _ =>
        if M <=? index
        then Throws (IndexOutOfBoundsFault
               ("Trying to get inexistent element of output vector in block '"
                +:+ getName b +:+ "'"))
        else Returns (Element index)
    | _ => IllFormed
    end
  else IllFormed.

(** [getOut() requires One<M>]. *)
Definition getOut_one (b : Blockio Tin Tout) : outcome ref :=
  if M =? 1 then Returns Member else IllFormed.

(** The static type of the members: [in] is a [decltype(generateNInputs())]
    and [out] a [decltype(generateMOutputs())], that is, the same shape,
    the same number of ports and the same unit tags. *)
Definition same_type {P : Type} (unit_of : P -> SIUnit.t) (s s' : ports P) : Prop :=
  match s, s' with
  | Empty, Empty => True
  | Single p, Single p' => unit_of p = unit_of p'
  | Array ps, Array ps' => unit_of <$> ps = unit_of <$> ps'
  | Tuple ps, Tuple ps' => unit_of <$> ps = unit_of <$> ps'
  | _, _ => False
  end.

Definition well_typed (b : Blockio Tin Tout) : Prop :=
  same_type U (in_ b) generateNInputs /\ same_type U (out b) generateMOutputs.

End Blockio.

(** The owner of each port of a storage and how often [setOwner] ran on it,
    in index order. *)
Definition ownership {T : Type} (s : ports (Port T)) : list (option BlockRef * nat) :=
  (fun p => (owner p, setOwner_calls p)) <$> ports_list s.

End Blockio.

(** ** Mul (Mul.hpp) *)

Module Mul.
Import Control Blockio.

(** [class Mul : public Blockio<0, 1, OutT, OutT, ...>] with the members
    [in1] and [in2]. *)
Record Mul (In1T In2T OutT : Type) : Type := mkMul {
  base : Blockio OutT OutT;
  in1 : Input In1T;
  in2 : Input In2T
}.
Arguments mkMul {In1T In2T OutT} _ _ _.
Arguments base {In1T In2T OutT} _.
Arguments in1 {In1T In2T OutT} _.
Arguments in2 {In1T In2T OutT} _.

Section Mul.
Context {In1T In2T OutT : Type} `{Zero OutT}.
(** [In1T * In2T], converted to [OutT]. *)
Variable mul : In1T -> In2T -> OutT.
(** The template arguments [Uin] and [Uout]. *)
Variables (Uin : list SIUnit.t) (Uout : SIUnit.t).
Variables (fresh1 : Signal In1T) (fresh2 : Signal In2T) (fresh_out : Signal OutT).

(** [MakeUnitArray<Uout>::value]: the array of the one unit. *)
Definition MakeUnitArray (u : SIUnit.t) : list SIUnit.t := [u].

(** [Mul() : in1(this), in2(this) { }], after the base class. *)
Definition construct (self : BlockRef) (name : string) : Mul In1T In2T OutT :=
  mkMul
    (Blockio.construct 0 1 (SIUnit.generateNSizeArray 0) (MakeUnitArray Uout)
       fresh_out fresh_out self name)
    (Port_owned fresh1 (unit_at Uin 0) self)
    (Port_owned fresh2 (unit_at Uin 1) self).

(** [this->out.getSignal().f(...)]: [out] is a port only when it is the
    single output. *)
Definition write_out (f : Signal OutT -> Signal OutT) (m : Mul In1T In2T OutT)
  : outcome (Mul In1T In2T OutT) :=
  match out (base m) with
  | Single o =>
      Returns (mkMul (mkBlockio (this (base m)) (getName (base m)) (in_ (base m))
                        (Single (onSignal f o)))
                     (in1 m) (in2 m))
  | _ => IllFormed
  end.

(** [Mul::run()]. *)
Definition run (m : Mul In1T In2T OutT) : outcome (Mul In1T In2T OutT) :=
  let prod := mul (getValue (getSignal (in1 m))) (getValue (getSignal (in2 m))) in
  m1 ← write_out (setValue prod) m;
  write_out (setTimestamp (getTimestamp (getSignal (in1 m1)))) m1.

End Mul.

End Mul.

(** ** DeMux (DeMux.hpp) *)

Module DeMux.
Import Control Blockio.

Section DeMux.
(** [T], [C] and [C::operator()(i)]: the [i]-th component of a vector. *)
Context {T C : Type} (component : C -> nat -> T).
(** The template argument [N]; [DeMux] is a [Blockio<1, N, C, T, ...>]. *)
Variable N : nat.

(** [this->in.getSignal()]: [in] is a port only when it is the single input. *)
Definition read_in (d : Blockio C T) : outcome (Signal C) :=
  match in_ d with
  | Single p => Returns (getSignal p)
  | _ => IllFormed
  end.

(** [this->out[i].getSignal().f(...)]: [out[i]] only compiles on the array. *)
Definition write_out (i : nat) (f : Signal T -> Signal T) (d : Blockio C T)
  : outcome (Blockio C T) :=
  match out d with
  | Array outs =>
      Returns (mkBlockio (this d) (getName d) (in_ d) (Array (alter (onSignal f) i outs)))
  | _ => IllFormed
  end.

(** The body of the loop of [DeMux::run()], for one [i]. *)
Definition body (i : nat) (d : Blockio C T) : outcome (Blockio C T) :=
  s ← read_in d;
  d1 ← write_out i (setValue (component (getValue s) i)) d;
  s1 ← read_in d1;
  write_out i (setTimestamp (getTimestamp s1)) d1.

(** [DeMux::run()]: [for (uint32_t i = 0; i < N; i++) { ... }].  The body has
    to compile whether or not the loop runs it: [in] is the single input
    and [out] the array. *)
Definition run (d : Blockio C T) : outcome (Blockio C T) :=
  match in_ d, out d with
  | Single _, Array _ => for_loop N 0 body d
  | _, _ => IllFormed
  end.

(** The loop invariant of [run] on the block [d] with the input [inp] and
    the outputs [outs]: what holds of the block [d'] once the rounds below
    [k] have run. *)
Definition rounds_done (d : Blockio C T) (inp : Input C) (outs : list (Output T))
  (k : nat) (d' : Blockio C T) : Prop :=
  this d' = this d /\ getName d' = getName d /\ in_ d' = in_ d
  /\ exists outs',
      out d' = Array outs'
      /\ length outs' = length outs
      /\ (fun p => (U p, owner p, setOwner_calls p)) <$> outs'
         = (fun p => (U p, owner p, setOwner_calls p)) <$> outs
      /\ forall i, i < k -> i < length outs ->
           exists o, outs' !! i = Some o
             /\ getValue (getSignal o) = component (getValue (getSignal inp)) i
             /\ getTimestamp (getSignal o) = getTimestamp (getSignal inp).

End DeMux.

End DeMux.

(** ** ScalableInput (hal/ScalableInput.hpp) *)

Module ScalableInput.

(** [class ScalableInput : public Input<T>]: [id] and [libHandle] are what the
    constructor hands to the base class, the other five are the members. *)
Record ScalableInput (T : Type) : Type := mk {
  id : string;
  libHandle : N;
  scale : T;
  offset : T;
  unit : SIUnit.t;
  minIn : T;
  maxIn : T
}.
Arguments mk {T} _ _ _ _ _ _ _.
Arguments id {T} _.
Arguments libHandle {T} _.
Arguments scale {T} _.
Arguments offset {T} _.
Arguments unit {T} _.
Arguments minIn {T} _.
Arguments maxIn {T} _.

Section ScalableInput.
Context {T : Type}.

(** [ScalableInput(id, libHandle, scale, offset, minIn, maxIn, unit)]. *)
Definition construct (id' : string) (libHandle' : N) (scale' offset' minIn' maxIn' : T)
  (unit' : SIUnit.t) : ScalableInput T :=
  mk id' libHandle' scale' offset' unit' minIn' maxIn'.

Definition getScale (s : ScalableInput T) : T := scale s.
Definition getOffset (s : ScalableInput T) : T := offset s.
Definition getUnit (s : ScalableInput T) : SIUnit.t := unit s.
Definition getMinIn (s : ScalableInput T) : T := minIn s.
Definition getMaxIn (s : ScalableInput T) : T := maxIn s.

Definition setScale (s' : T) (s : ScalableInput T) : ScalableInput T :=
  mk (id s) (libHandle s) s' (offset s) (unit s) (minIn s) (maxIn s).

Definition setOffset (o : T) (s : ScalableInput T) : ScalableInput T :=
  mk (id s) (libHandle s) (scale s) o (unit s) (minIn s) (maxIn s).

Definition setUnit (u : SIUnit.t) (s : ScalableInput T) : ScalableInput T :=
  mk (id s) (libHandle s) (scale s) (offset s) u (minIn s) (maxIn s).

Definition setMinIn (minI : T) (s : ScalableInput T) : ScalableInput T :=
  mk (id s) (libHandle s) (scale s) (offset s) (unit s) minI (maxIn s).

Definition setMaxIn (maxI : T) (s : ScalableInput T) : ScalableInput T :=
  mk (id s) (libHandle s) (scale s) (offset s) (unit s) (minIn s) maxI.

(** The five members as the getters show them. *)
Definition readings (s : ScalableInput T) : T * T * SIUnit.t * T * T :=
  (getScale s, getOffset s, getUnit s, getMinIn s, getMaxIn s).

End ScalableInput.

End ScalableInput.

(** ** Concrete blocks *)

Module Scenarios.
Import Control Blockio.

(** A signal that is not in the cleared state. *)
Definition stale : Signal Z := mkSignal 7%Z (Some 99%N).

(** [Blockio<2, 2, int, int, {Watt, Watt}, {Watt, Watt}>] named [blk]. *)
Definition two_Watts : Blockio Z Z :=
  construct 2 2 [SIUnit.Watt; SIUnit.Watt] [SIUnit.Watt; SIUnit.Watt]
    stale stale 1%N "blk".

(** [Blockio<2, 2, int, int>] named [blk]: every unit defaulted. *)
Definition two_plain : Blockio Z Z :=
  construct 2 2 (SIUnit.generateNSizeArray 2) (SIUnit.generateNSizeArray 2)
    stale stale 1%N "blk".

(** [Blockio<3, 1, int, int, {Watt, Newton, Watt}, {Volt}>] named [mixed]. *)
Definition mixed : Blockio Z Z :=
  construct 3 1 [SIUnit.Watt; SIUnit.Newton; SIUnit.Watt] [SIUnit.Volt]
    stale stale 2%N "mixed".

(** [Mul<double, double, double>] whose inputs see 3.0 at time 10 and 4.0 at
    time 20. *)
Definition multiplier : Mul.Mul float float float :=
  Mul.construct (SIUnit.generateNSizeArray 2) SIUnit.dimensionless
    (mkSignal 3%float (Some 10%N)) (mkSignal 4%float (Some 20%N))
    (mkSignal 1%float (Some 99%N)) 3%N "mul".

(** A vector of [int] as a list; [v(i)] is its [i]-th entry. *)
Definition entry (v : list Z) (i : nat) : Z := nth i v 0%Z.

(** [DeMux<3, int>] whose input sees [1, 2, 3] at time 5. *)
Definition demux3 : Blockio (list Z) Z :=
  construct 1 3 (Mul.MakeUnitArray SIUnit.dimensionless) (SIUnit.generateNSizeArray 3)
    (mkSignal [1%Z; 2%Z; 3%Z] (Some 5%N)) stale 4%N "demux".

(** A [ScalableInput<int>]. *)
Definition analog_in : ScalableInput.ScalableInput Z :=
  ScalableInput.construct "ain0" 0%N 2%Z 1%Z (-10)%Z 10%Z SIUnit.Volt.

End Scenarios.

(** ** The earlier copy of Blockio (Blockio.hpp, second class definition) *)

Module Blockio_earlier.
Import Control Blockio.

Section Blockio_earlier.
Context {Tin Tout : Type}.
Variables (N M : nat) (Uin Uout : list SIUnit.t).
Variables (fresh_in : Signal Tin) (fresh_out : Signal Tout).

(** [createOutputs(std::index_sequence<Is...>)] of the earlier copy: the
    test reads [Uin], and the array is a
    [std::array<Output<Tin, SIUnit::create()>, N>]; only the tuple is made of
    [Output<Tout, Uout[Is]>].  The two branches differ in type, so the result
    is a sum. *)
Definition createOutputs (Is : list nat)
  : ports (Output Tin) + ports (Output Tout) :=
  if allDimensionLess Uin
  then inl (Array (replicate N (Port_default fresh_in SIUnit.dimensionless)))
  else inr (Tuple ((fun i => Port_default fresh_out (unit_at Uout i)) <$> Is)).

(** [generateMOutputs()] of the earlier copy. *)
Definition generateMOutputs : ports (Output Tin) + ports (Output Tout) :=
  if M =? 1 then inr (Single (Port_default fresh_out (unit_at Uout 0)))
  else if M =? 0 then inr Empty
  else createOutputs (seq 0 M).

End Blockio_earlier.

End Blockio_earlier.

(** ** HALFeatures (hal/HALFeatures.hpp) *)

Module HALFeatures.

(** [enum Direction]. *)
Inductive Direction : Type :=
| In
| Out.

(** [enum Type]. *)
Inductive Type_ : Type :=
| Logic
| Real.

#[export] Instance Direction_eq_dec : EqDecision Direction.
Proof. solve_decision. Defined.

#[export] Instance Type_eq_dec : EqDecision Type_.
Proof. solve_decision. Defined.

#[export] Instance SIUnit_eq_dec : EqDecision SIUnit.t.
Proof. solve_decision. Defined.

(** [const std::map<std::string, Direction> directionOfChannel]. *)
Definition directionOfChannel : gmap string Direction :=
  list_to_map
    [("DigIn", In); ("DigOut", Out); ("AnalogOut", Out); ("AnalogIn", In);
     ("Pwm", Out); ("Watchdog", In); ("Fqd", In)].

(** [const std::map<std::string, Type> typeOfChannel]. *)
Definition typeOfChannel : gmap string Type_ :=
  list_to_map
    [("DigIn", Logic); ("DigOut", Logic); ("AnalogOut", Real); ("AnalogIn", Real);
     ("Pwm", Real); ("Watchdog", Logic); ("Fqd", Real)].

(** [const std::map<std::string, SIUnit> typeOfUnit]. *)
Definition typeOfUnit : gmap string SIUnit.t :=
  list_to_map
    [("W", SIUnit.Watt); ("N", SIUnit.Newton); ("J", SIUnit.Joule);
     ("V", SIUnit.Volt); ("rad", SIUnit.Radian)].

End HALFeatures.

(** * Properties *)

(** ** SIUnit: equality and ordering *)

Module SIUnit_facts.
Import SIUnit.

Lemma lexicographic_refl (xs : list Z) : lexicographic xs xs = Eq.
Proof.
  induction xs as [|x xs IH]; simpl; [reflexivity|].
  rewrite Z.compare_refl. exact IH.
Qed.

Lemma lexicographic_eq (xs ys : list Z) : lexicographic xs ys = Eq -> xs = ys.
Proof.
  revert ys. induction xs as [|x xs IH]; intros [|y ys]; simpl; try discriminate.
  - reflexivity.
  - destruct (x ?= y)%Z eqn:E; try discriminate.
    intros Hl. apply Z.compare_eq in E. subst y. f_equal. apply IH, Hl.
Qed.

Lemma lexicographic_antisym (xs ys : list Z) :
  lexicographic ys xs = CompOpp (lexicographic xs ys).
Proof.
  revert ys. induction xs as [|x xs IH]; intros [|y ys]; simpl; try reflexivity.
  rewrite (Z.compare_antisym x y).
  destruct (x ?= y)%Z; simpl; try reflexivity. apply IH.
Qed.

Lemma lexicographic_lt_trans (xs ys zs : list Z) :
  lexicographic xs ys = Lt -> lexicographic ys zs = Lt -> lexicographic xs zs = Lt.
Proof.
  revert ys zs.
  induction xs as [|x xs IH]; intros [|y ys] [|z zs]; simpl; try discriminate; try reflexivity.
  intros H1 H2.
  destruct (x ?= y)%Z eqn:Exy; try discriminate;
    destruct (y ?= z)%Z eqn:Eyz; try discriminate.
  - apply Z.compare_eq in Exy, Eyz. subst. rewrite Z.compare_refl. eapply IH; eassumption.
  - apply Z.compare_eq in Exy. subst. rewrite Eyz. reflexivity.
  - apply Z.compare_eq in Eyz. subst. rewrite Exy. reflexivity.
  - assert (Hxz : (x ?= z)%Z = Lt).
    { pose proof (proj1 (Z.compare_lt_iff x y) Exy) as Hxy.
      pose proof (proj1 (Z.compare_lt_iff y z) Eyz) as Hyz.
      apply Z.compare_lt_iff. lia. }
    rewrite Hxz. reflexivity.
Qed.

Lemma fields_inj (u v : t) : fields u = fields v -> u = v.
Proof.
  destruct u as [l m ti e th a lu r], v as [l' m' ti' e' th' a' lu' r'].
  unfold fields; simpl. intros Hf.
  injection Hf as -> -> -> -> -> -> -> Hr.
  f_equal. destruct r, r'; simpl in Hr; congruence.
Qed.

(** The defaulted [<=>] is the lexicographic comparison of the field
    sequences. *)
Lemma compare_lexicographic (u v : t) :
  compare u v = lexicographic (fields u) (fields v).
Proof.
  unfold compare, fields.
  destruct (radian u), (radian v); simpl;
    repeat (match goal with
            | |- context [(?x ?= ?y)%Z] => destruct (x ?= y)%Z; simpl; try reflexivity
            end).
Qed.

Lemma compare_eq (u v : t) : compare u v = Eq <-> u = v.
Proof.
  rewrite compare_lexicographic. split.
  - intros Hc. apply fields_inj, lexicographic_eq, Hc.
  - intros ->. apply lexicographic_refl.
Qed.

Lemma compare_antisym (u v : t) : compare v u = CompOpp (compare u v).
Proof. rewrite !compare_lexicographic. apply lexicographic_antisym. Qed.

Lemma compare_lt_trans (u v w : t) :
  compare u v = Lt -> compare v w = Lt -> compare u w = Lt.
Proof. rewrite !compare_lexicographic. apply lexicographic_lt_trans. Qed.

(** The defaulted [==] holds exactly when the eight field pairs agree. *)
Lemma eqb_fields (u v : t) :
  eqb u v = true <->
  length u = length v /\ mass u = mass v /\ time u = time v
  /\ electric_current u = electric_current v
  /\ thermodynamic_temperature u = thermodynamic_temperature v
  /\ amount_of_substance u = amount_of_substance v
  /\ luminous_intensity u = luminous_intensity v
  /\ radian u = radian v.
Proof.
  unfold eqb. rewrite !andb_true_iff, !Z.eqb_eq, Bool.eqb_true_iff. tauto.
Qed.

Lemma eqb_eq (u v : t) : eqb u v = true <-> u = v.
Proof.
  rewrite eqb_fields. split.
  - destruct u, v; simpl. intros (-> & -> & -> & -> & -> & -> & -> & ->). reflexivity.
  - intros ->. repeat split.
Qed.

Lemma leb_trans (u v w : t) : leb u v = true -> leb v w = true -> leb u w = true.
Proof.
  unfold leb.
  intros Huv Hvw.
  destruct (compare u v) eqn:Euv; try discriminate;
    destruct (compare v w) eqn:Evw; try discriminate.
  - apply compare_eq in Euv, Evw. subst.
    rewrite (proj2 (compare_eq w w) eq_refl). reflexivity.
  - apply compare_eq in Euv. subst. rewrite Evw. reflexivity.
  - apply compare_eq in Evw. subst. rewrite Euv. reflexivity.
  - rewrite (compare_lt_trans u v w Euv Evw). reflexivity.
Qed.

(** C1.  [u1 == u2] holds exactly when the eight fields agree pairwise; [==]
    is reflexive, symmetric and transitive; [<=] (from the defaulted [<=>])
    is reflexive, antisymmetric, transitive and total; and [<=>] is the
    field-by-field lexicographic comparison in the order length, mass,
    time, electric current, thermodynamic temperature, amount of substance,
    luminous intensity, radian, and answers "equal" exactly when [==] holds. *)
Theorem SIUnit_equality_and_total_order :
  (forall u1 u2 : t,
      eqb u1 u2 = true <->
      length u1 = length u2 /\ mass u1 = mass u2 /\ time u1 = time u2
      /\ electric_current u1 = electric_current u2
      /\ thermodynamic_temperature u1 = thermodynamic_temperature u2
      /\ amount_of_substance u1 = amount_of_substance u2
      /\ luminous_intensity u1 = luminous_intensity u2
      /\ radian u1 = radian u2)
  /\ (forall u : t, eqb u u = true)
  /\ (forall u v : t, eqb u v = true -> eqb v u = true)
  /\ (forall u v w : t, eqb u v = true -> eqb v w = true -> eqb u w = true)
  /\ (forall u : t, leb u u = true)
  /\ (forall u v : t, leb u v = true -> leb v u = true -> u = v)
  /\ (forall u v w : t, leb u v = true -> leb v w = true -> leb u w = true)
  /\ (forall u v : t, leb u v = true \/ leb v u = true)
  /\ (forall u v : t, compare u v = lexicographic (fields u) (fields v))
  /\ (forall u v : t, compare u v = Eq <-> eqb u v = true)
  /\ (forall u v : t, compare v u = CompOpp (compare u v)).
Proof.
  repeat apply conj.
  - apply eqb_fields.
  - intros u. apply eqb_eq. reflexivity.
  - intros u v Huv. apply eqb_eq. apply eqb_eq in Huv. congruence.
  - intros u v w Huv Hvw. apply eqb_eq. apply eqb_eq in Huv, Hvw. congruence.
  - intros u. unfold leb. rewrite (proj2 (compare_eq u u) eq_refl). reflexivity.
  - intros u v. unfold leb. rewrite (compare_antisym u v).
    intros H1 H2.
    destruct (compare u v) eqn:E; simpl in *; try discriminate.
    apply compare_eq, E.
  - apply leb_trans.
  - intros u v. unfold leb. rewrite (compare_antisym u v).
    destruct (compare u v); simpl; auto.
  - apply compare_lexicographic.
  - intros u v. rewrite compare_eq, eqb_eq. reflexivity.
  - apply compare_antisym.
Qed.

(** C10.  [SIUnit::create] accepts every combination of the seven exponents
    and the radian flag and returns the unit whose eight fields are the
    arguments; the radian check that exists only as a comment is not
    applied: a combination it would refuse, radian together with a nonzero
    exponent, is built all the same. *)
Theorem create_accepts_every_combination :
  (forall (Length Mass Time Electric_Current Thermodynamic_Temperature
           Amount_Of_Substance Luminous_Intensity : Z) (Radian : bool),
      exists u : t,
        create Length Mass Time Electric_Current Thermodynamic_Temperature
               Amount_Of_Substance Luminous_Intensity Radian = Some u
        /\ length u = Length /\ mass u = Mass /\ time u = Time
        /\ electric_current u = Electric_Current
        /\ thermodynamic_temperature u = Thermodynamic_Temperature
        /\ amount_of_substance u = Amount_Of_Substance
        /\ luminous_intensity u = Luminous_Intensity
        /\ radian u = Radian)
  /\ valid_radian 1 0 0 0 0 0 0 true = false
  /\ create 1 0 0 0 0 0 0 true = Some (mk 1 0 0 0 0 0 0 true).
Proof.
  split.
  - intros Length Mass Time Electric_Current Thermodynamic_Temperature
           Amount_Of_Substance Luminous_Intensity Radian.
    eexists. split; [reflexivity|]. simpl. repeat split.
  - split; reflexivity.
Qed.

End SIUnit_facts.

(** ** Blockio: storage, access, construction *)

Module Blockio_facts.
Import Control Blockio.

Lemma allDimensionLess_Forall (Us : list SIUnit.t) :
  allDimensionLess Us = true <-> Forall (fun u => u = SIUnit.dimensionless) Us.
Proof.
  unfold allDimensionLess. induction Us as [|u Us IH]; simpl.
  - split; [constructor | reflexivity].
  - rewrite andb_true_iff, IH, SIUnit_facts.eqb_eq, Forall_cons. reflexivity.
Qed.

Lemma allDimensionLess_false (Us : list SIUnit.t) :
  allDimensionLess Us = false <-> ~ Forall (fun u => u = SIUnit.dimensionless) Us.
Proof.
  rewrite <- allDimensionLess_Forall. destruct (allDimensionLess Us); split; congruence.
Qed.

Lemma many_not_one_nor_none (n : nat) : 1 < n -> (n =? 1) = false /\ (n =? 0) = false.
Proof. intros Hn. split; apply Nat.eqb_neq; lia. Qed.

Lemma generateNInputs_many {Tin : Type} (N : nat) (Uin : list SIUnit.t)
  (fresh_in : Signal Tin) :
  1 < N -> generateNInputs N Uin fresh_in = createInputs N Uin fresh_in (seq 0 N).
Proof.
  intros Hn. unfold generateNInputs.
  destruct (many_not_one_nor_none N Hn) as [-> ->]. reflexivity.
Qed.

Lemma generateMOutputs_many {Tout : Type} (M : nat) (Uout : list SIUnit.t)
  (fresh_out : Signal Tout) :
  1 < M -> generateMOutputs M Uout fresh_out = createOutputs M Uout fresh_out (seq 0 M).
Proof.
  intros Hm. unfold generateMOutputs.
  destruct (many_not_one_nor_none M Hm) as [-> ->]. reflexivity.
Qed.

(** What decides between the array and the tuple, for one side. *)
Lemma choice_of_storage {P : Type} (Us : list SIUnit.t) (arr tup : list P) :
  let s := if allDimensionLess Us then Array arr else Tuple tup in
  ((exists ps, s = Array ps) <-> Forall (fun u => u = SIUnit.dimensionless) Us)
  /\ ((exists ps, s = Tuple ps) <-> ~ Forall (fun u => u = SIUnit.dimensionless) Us)
  /\ ((exists ps, s = Array ps) -> Forall (fun u => u = unit_at Us 0) Us).
Proof.
  simpl. destruct (allDimensionLess Us) eqn:E.
  - apply allDimensionLess_Forall in E. repeat split.
    + intros _. exact E.
    + intros _. eexists. reflexivity.
    + intros [ps Hps]. discriminate.
    + intros Hn. contradiction.
    + intros _. destruct E as [|u Us' Hu HUs]; [constructor|].
      unfold unit_at; simpl. subst u. constructor; [reflexivity | exact HUs].
  - apply allDimensionLess_false in E. repeat split.
    + intros [ps Hps]. discriminate.
    + intros HF. contradiction.
    + intros _. exact E.
    + intros _. eexists. reflexivity.
    + intros [ps Hps]. discriminate.
Qed.

(** C2, as the code has it.  On a side with more than one port the storage
    is the array exactly when every declared unit is the dimensionless unit
    [SIUnit::create()], and the tuple exactly when some unit is not; so the
    array implies that every unit equals the first one, and not the other
    way round. *)
Theorem many_side_is_array_iff_all_dimensionless :
  forall (Tin Tout : Type) (N M : nat) (Uin Uout : list SIUnit.t)
         (fresh_in : Signal Tin) (fresh_out : Signal Tout),
    (1 < N ->
       ((exists ps, generateNInputs N Uin fresh_in = Array ps)
          <-> Forall (fun u => u = SIUnit.dimensionless) Uin)
       /\ ((exists ps, generateNInputs N Uin fresh_in = Tuple ps)
          <-> ~ Forall (fun u => u = SIUnit.dimensionless) Uin)
       /\ ((exists ps, generateNInputs N Uin fresh_in = Array ps)
          -> Forall (fun u => u = unit_at Uin 0) Uin))
    /\ (1 < M ->
       ((exists ps, generateMOutputs M Uout fresh_out = Array ps)
          <-> Forall (fun u => u = SIUnit.dimensionless) Uout)
       /\ ((exists ps, generateMOutputs M Uout fresh_out = Tuple ps)
          <-> ~ Forall (fun u => u = SIUnit.dimensionless) Uout)
       /\ ((exists ps, generateMOutputs M Uout fresh_out = Array ps)
          -> Forall (fun u => u = unit_at Uout 0) Uout)).
Proof.
  intros Tin Tout N M Uin Uout fresh_in fresh_out. split.
  - intros Hn. rewrite (generateNInputs_many N Uin fresh_in Hn).
    unfold createInputs. apply choice_of_storage.
  - intros Hm. rewrite (generateMOutputs_many M Uout fresh_out Hm).
    unfold createOutputs. apply choice_of_storage.
Qed.

(** C2, as the claim has it, fails: two inputs (and two outputs) that are
    both [Watt] all equal the first unit, and yet the storage is the tuple. *)
Lemma two_Watts_all_equal_yet_tuple :
  Forall (fun u => u = unit_at [SIUnit.Watt; SIUnit.Watt] 0) [SIUnit.Watt; SIUnit.Watt]
  /\ generateNInputs 2 [SIUnit.Watt; SIUnit.Watt] Scenarios.stale
     = Tuple [Port_default Scenarios.stale SIUnit.Watt;
              Port_default Scenarios.stale SIUnit.Watt]
  /\ generateMOutputs 2 [SIUnit.Watt; SIUnit.Watt] Scenarios.stale
     = Tuple [Port_default Scenarios.stale SIUnit.Watt;
              Port_default Scenarios.stale SIUnit.Watt].
Proof.
  split; [|split; reflexivity].
  repeat constructor.
Qed.

(** The runtime-index accessor on an array of [n] ports: one lemma for both
    sides, stated on what [getIn] and [getOut] unfold to. *)
Lemma checked_index (n index : nat) (text : string) :
  let r := if n <=? index then Throws (IndexOutOfBoundsFault text)
           else Returns (Element index) in
  ((exists f, r = Throws f) <-> n <= index)
  /\ (forall f, r = Throws f -> f = IndexOutOfBoundsFault text)
  /\ (index < n -> r = Returns (Element index)).
Proof.
  simpl. destruct (Nat.leb_spec n index) as [Hle|Hlt]; repeat split.
  - intros _. exact Hle.
  - intros _. eexists. reflexivity.
  - intros f Hf. congruence.
  - intros Hlt. lia.
  - intros [f Hf]. discriminate.
  - intros Hle. lia.
  - intros f Hf. discriminate.
Qed.

(** C3, as the code has it.  On an array of more than one input, [getIn(i)]
    throws exactly when [i >= N]; the fault it throws is built from the
    text that ends in the name of the block, whatever [i] is, so it holds
    the name and no index; below [N] the call returns the element [i].
    The same for [getOut] and [M]. *)
Theorem runtime_index_fault_names_the_block :
  forall (Tin Tout : Type) (N M : nat) (b : Blockio Tin Tout) (index : nat),
    (1 < N -> (exists ps, in_ b = Array ps) ->
       ((exists f, getIn N b index = Throws f) <-> N <= index)
       /\ (forall f, getIn N b index = Throws f ->
             f = IndexOutOfBoundsFault
                   ("Trying to get inexistent element of input vector in block '"
                    +:+ getName b +:+ "'"))
       /\ (index < N -> getIn N b index = Returns (Element index)))
    /\ (1 < M -> (exists ps, out b = Array ps) ->
       ((exists f, getOut M b index = Throws f) <-> M <= index)
       /\ (forall f, getOut M b index = Throws f ->
             f = IndexOutOfBoundsFault
                   ("Trying to get inexistent element of output vector in block '"
                    +:+ getName b +:+ "'"))
       /\ (index < M -> getOut M b index = Returns (Element index))).
Proof.
  intros Tin Tout N M b index. split.
  - intros Hn [ps Hps]. unfold getIn. rewrite Hps.
    rewrite (proj2 (Nat.ltb_lt 1 N) Hn). apply checked_index.
  - intros Hm [ps Hps]. unfold getOut. rewrite Hps.
    rewrite (proj2 (Nat.ltb_lt 1 M) Hm). apply checked_index.
Qed.

(** C3, as the claim has it, fails: on the block [blk] with two plain
    inputs, index 2 is out of bounds and the fault holds the text below,
    in which no 2 occurs; index 3 raises the very same fault. *)
Lemma fault_at_index_2_holds_no_index :
  getIn 2 Scenarios.two_plain 2
  = Throws (IndexOutOfBoundsFault
              "Trying to get inexistent element of input vector in block 'blk'")
  /\ String.index 0 "2"
       "Trying to get inexistent element of input vector in block 'blk'" = None
  /\ getIn 2 Scenarios.two_plain 3 = getIn 2 Scenarios.two_plain 2
  /\ getOut 2 Scenarios.two_plain 3 = getOut 2 Scenarios.two_plain 2.
Proof. repeat split. Qed.

(** Construction gives the members their static type. *)
Lemma same_type_for_each {T : Type} (f : Port T -> Port T) (s : ports (Port T)) :
  (forall p, U (f p) = U p) -> same_type U (for_each f s) s.
Proof.
  intros Hf. destruct s as [|p|ps|ps]; simpl; try exact I; try apply Hf;
    rewrite <- list_fmap_compose; apply list_fmap_ext; intros i p _; apply Hf.
Qed.

Lemma same_type_refl {T : Type} (s : ports (Port T)) : same_type U s s.
Proof. destruct s; simpl; auto. Qed.

Lemma same_type_trans {T : Type} (s1 s2 s3 : ports (Port T)) :
  same_type U s1 s2 -> same_type U s2 s3 -> same_type U s1 s3.
Proof.
  destruct s1, s2, s3; simpl; try tauto; congruence.
Qed.

Lemma construct_well_typed {Tin Tout : Type} `{Zero Tout} (N M : nat)
  (Uin Uout : list SIUnit.t) (fresh_in : Signal Tin) (fresh_out : Signal Tout)
  (self : BlockRef) (name : string) :
  well_typed N M Uin Uout fresh_in fresh_out
    (construct N M Uin Uout fresh_in fresh_out self name).
Proof.
  unfold well_typed, construct, initalizeInputsAndOutputs; simpl. split.
  - destruct (N =? 1); [|destruct (1 <? N)];
      try apply same_type_for_each; try apply same_type_refl; reflexivity.
  - destruct (M =? 1); [|destruct (1 <? M)]; try apply same_type_refl;
      (eapply same_type_trans; [apply same_type_for_each; reflexivity|]);
      apply same_type_for_each; reflexivity.
Qed.

(** A well-typed side with more than one port, all dimensionless, is an
    array of that many ports. *)
Lemma well_typed_array {T : Type} (n : nat) (Us : list SIUnit.t) (s : ports (Port T))
  (arr tup : list (Port T)) :
  same_type U s (if allDimensionLess Us then Array arr else Tuple tup) ->
  Forall (fun u => u = SIUnit.dimensionless) Us ->
  length arr = n ->
  exists ps, s = Array ps /\ length ps = n.
Proof.
  intros Hs HF Hlen. apply allDimensionLess_Forall in HF. rewrite HF in Hs.
  destruct s as [|p|ps|ps]; simpl in Hs; try contradiction.
  exists ps. split; [reflexivity|].
  rewrite <- Hlen, <- (length_fmap U ps), Hs. apply length_fmap.
Qed.

(** Both index accessors on an array of [n] ports, below [n]. *)
Lemma access_agrees {T : Type} (n i : nat) (ps : list (Port T)) (text : string) :
  length ps = n -> i < n ->
  (if n <=? i then Throws (IndexOutOfBoundsFault text) else Returns (Element i))
  = (if i <? length ps then Returns (Element i) else IllFormed)
  /\ (if i <? length ps then Returns (Element i) else @IllFormed ref) = Returns (Element i)
  /\ exists p, ps !! i = Some p.
Proof.
  intros Hlen Hi.
  rewrite (proj2 (Nat.leb_gt n i) Hi).
  rewrite (proj2 (Nat.ltb_lt i (length ps))) by lia.
  repeat split. apply lookup_lt_is_Some_2. lia.
Qed.

(** C4, as the code has it.  In a block with more than one input whose
    declared units are all the dimensionless unit, [getIn(i)] and
    [getIn<i>()] return, for every [i < N], a reference to the same
    element, and that element is a port of the block.  The same for the
    outputs. *)
Theorem runtime_and_static_access_agree :
  forall (Tin Tout : Type) (N M : nat) (Uin Uout : list SIUnit.t)
         (fresh_in : Signal Tin) (fresh_out : Signal Tout)
         (b : Blockio Tin Tout) (i : nat),
    well_typed N M Uin Uout fresh_in fresh_out b ->
    (1 < N -> Forall (fun u => u = SIUnit.dimensionless) Uin -> i < N ->
       getIn N b i = getIn_at N i b
       /\ getIn_at N i b = Returns (Element i)
       /\ exists p, port_at (in_ b) (Element i) = Some p)
    /\ (1 < M -> Forall (fun u => u = SIUnit.dimensionless) Uout -> i < M ->
       getOut M b i = getOut_at M i b
       /\ getOut_at M i b = Returns (Element i)
       /\ exists p, port_at (out b) (Element i) = Some p).
Proof.
  intros Tin Tout N M Uin Uout fresh_in fresh_out b i [Hin Hout]. split.
  - intros Hn HF Hi.
    rewrite (generateNInputs_many N Uin fresh_in Hn) in Hin. unfold createInputs in Hin.
    destruct (well_typed_array N Uin (in_ b) _ _ Hin HF (length_replicate _ _))
      as (ps & Hps & Hlen).
    unfold getIn, getIn_at. rewrite Hps, (proj2 (Nat.ltb_lt 1 N) Hn). simpl.
    apply access_agrees; assumption.
  - intros Hm HF Hi.
    rewrite (generateMOutputs_many M Uout fresh_out Hm) in Hout. unfold createOutputs in Hout.
    destruct (well_typed_array M Uout (out b) _ _ Hout HF (length_replicate _ _))
      as (ps & Hps & Hlen).
    unfold getOut, getOut_at. rewrite Hps, (proj2 (Nat.ltb_lt 1 M) Hm). simpl.
    apply access_agrees; assumption.
Qed.

Lemma runtime_and_static_access_agree_witness :
  getIn 2 Scenarios.two_plain 1 = getIn_at 2 1 Scenarios.two_plain
  /\ getIn_at 2 1 Scenarios.two_plain = Returns (Element 1)
  /\ exists p, port_at (in_ Scenarios.two_plain) (Element 1) = Some p.
Proof.
  apply (runtime_and_static_access_agree Z Z 2 2
           (SIUnit.generateNSizeArray 2) (SIUnit.generateNSizeArray 2)
           Scenarios.stale Scenarios.stale Scenarios.two_plain 1).
  - split; reflexivity.
  - lia.
  - repeat constructor.
  - lia.
Defined.

(** C4, as the claim has it, fails: the two inputs (and outputs) of
    [two_Watts] have equal units, [getIn<0>()] returns the first one, and
    [getIn(0)] does not compile. *)
Lemma equal_units_without_runtime_access :
  Forall (fun u => u = unit_at [SIUnit.Watt; SIUnit.Watt] 0) [SIUnit.Watt; SIUnit.Watt]
  /\ getIn_at 2 0 Scenarios.two_Watts = Returns (Element 0)
  /\ getIn 2 Scenarios.two_Watts 0 = IllFormed
  /\ getOut_at 2 0 Scenarios.two_Watts = Returns (Element 0)
  /\ getOut 2 Scenarios.two_Watts 0 = IllFormed.
Proof.
  split; [repeat constructor | repeat split].
Qed.

(** ** Construction *)

Lemma ports_list_for_each {P : Type} (f : P -> P) (s : ports P) :
  ports_list (for_each f s) = f <$> ports_list s.
Proof. destruct s; reflexivity. Qed.

(** Every port that [generateNInputs] or [generateMOutputs] makes is
    default-constructed, and there are as many as the count says. *)
Lemma generated_ports {T : Type} (n : nat) (Us : list SIUnit.t) (fresh : Signal T) :
  let s := if n =? 1 then Single (Port_default fresh (unit_at Us 0))
           else if n =? 0 then Empty
           else if allDimensionLess Us
                then Array (replicate n (Port_default fresh SIUnit.dimensionless))
                else Tuple ((fun i => Port_default fresh (unit_at Us i)) <$> seq 0 n) in
  length (ports_list s) = n
  /\ Forall (fun p => owner p = None /\ setOwner_calls p = 0) (ports_list s).
Proof.
  simpl. destruct (Nat.eqb_spec n 1) as [->|Hn1]; [|destruct (Nat.eqb_spec n 0) as [->|Hn0]].
  - split; [reflexivity|]. repeat constructor.
  - split; [reflexivity|]. constructor.
  - destruct (allDimensionLess Us); simpl.
    + split; [apply length_replicate|].
      apply Forall_replicate. split; reflexivity.
    + split; [rewrite length_fmap; apply length_seq|].
      apply Forall_fmap, Forall_forall. intros i _. split; reflexivity.
Qed.

(** The outputs of a constructed block: every generated output, with its
    owner set and then its signal cleared. *)
Lemma out_construct {Tin Tout : Type} `{Zero Tout} (N M : nat)
  (Uin Uout : list SIUnit.t) (fresh_in : Signal Tin) (fresh_out : Signal Tout)
  (self : BlockRef) (name : string) :
  ports_list (out (construct N M Uin Uout fresh_in fresh_out self name))
  = (fun p => onSignal clear (setOwner self p))
      <$> ports_list (generateMOutputs M Uout fresh_out).
Proof.
  unfold construct, initalizeInputsAndOutputs; simpl.
  destruct (Nat.eqb_spec M 1) as [HM1|HM1]; [|destruct (Nat.ltb_spec 1 M) as [HM|HM]].
  - rewrite !ports_list_for_each, <- list_fmap_compose. reflexivity.
  - rewrite !ports_list_for_each, <- list_fmap_compose. reflexivity.
  - assert (M = 0) as -> by lia. reflexivity.
Qed.

(** The inputs of a constructed block: every generated input, with its
    owner set. *)
Lemma in_construct {Tin Tout : Type} `{Zero Tout} (N M : nat)
  (Uin Uout : list SIUnit.t) (fresh_in : Signal Tin) (fresh_out : Signal Tout)
  (self : BlockRef) (name : string) :
  ports_list (in_ (construct N M Uin Uout fresh_in fresh_out self name))
  = setOwner self <$> ports_list (generateNInputs N Uin fresh_in).
Proof.
  unfold construct, initalizeInputsAndOutputs; simpl.
  destruct (Nat.eqb_spec N 1) as [HN1|HN1]; [|destruct (Nat.ltb_spec 1 N) as [HN|HN]].
  - apply ports_list_for_each.
  - apply ports_list_for_each.
  - assert (N = 0) as -> by lia. reflexivity.
Qed.

(** C5.  Right after construction a block has [M] output ports, and the
    signal of every one of them holds the zero of the value type and the
    empty timestamp, whatever the default constructor of the signal left;
    for [M = 1] this is the single output. *)
Theorem outputs_cleared_at_construction :
  forall (Tin Tout : Type) (Z0 : Zero Tout) (N M : nat) (Uin Uout : list SIUnit.t)
         (fresh_in : Signal Tin) (fresh_out : Signal Tout)
         (self : BlockRef) (name : string),
    length (ports_list (out (construct N M Uin Uout fresh_in fresh_out self name))) = M
    /\ Forall (fun o => value (signal o) = zero /\ timestamp (signal o) = None)
         (ports_list (out (construct N M Uin Uout fresh_in fresh_out self name)))
    /\ (M = 1 -> exists o,
          out (construct N M Uin Uout fresh_in fresh_out self name) = Single o
          /\ getSignal o = mkSignal zero None).
Proof.
  intros Tin Tout Z0 N M Uin Uout fresh_in fresh_out self name.
  rewrite out_construct.
  destruct (generated_ports M Uout fresh_out) as [Hlen _].
  repeat split.
  - rewrite length_fmap. exact Hlen.
  - apply Forall_fmap, Forall_forall. intros p _. split; reflexivity.
  - intros ->. eexists. split; reflexivity.
Qed.

End Blockio_facts.

(** ** Mul *)

Module Mul_facts.
Import Control Blockio Mul.

(** One write through [this->out.getSignal()] on a single output. *)
Lemma write_out_single {In1T In2T OutT : Type} (f : Signal OutT -> Signal OutT)
  (m : Mul In1T In2T OutT) (o : Output OutT) :
  out (base m) = Single o ->
  write_out f m
  = Returns (mkMul (mkBlockio (this (base m)) (getName (base m)) (in_ (base m))
                      (Single (onSignal f o)))
                   (in1 m) (in2 m)).
Proof. intros Ho. unfold write_out. rewrite Ho. reflexivity. Qed.

(** C7.  One [run()] of a multiplier returns, and afterwards the value of
    the output signal is the product of the values the two inputs held and
    its timestamp is the timestamp of the first input; the inputs, the
    owner of the output and its unit are as before. *)
Theorem run_multiplies_and_takes_first_timestamp :
  forall (In1T In2T OutT : Type) (mul : In1T -> In2T -> OutT)
         (m : Mul In1T In2T OutT) (o : Output OutT),
    out (base m) = Single o ->
    exists (m' : Mul In1T In2T OutT) (o' : Output OutT),
      run mul m = Returns m'
      /\ out (base m') = Single o'
      /\ getValue (getSignal o')
         = mul (getValue (getSignal (in1 m))) (getValue (getSignal (in2 m)))
      /\ getTimestamp (getSignal o') = getTimestamp (getSignal (in1 m))
      /\ in1 m' = in1 m /\ in2 m' = in2 m
      /\ owner o' = owner o /\ setOwner_calls o' = setOwner_calls o /\ U o' = U o.
Proof.
  intros In1T In2T OutT mul m o Ho.
  unfold run.
  rewrite (write_out_single _ m o Ho).
  unfold mbind, outcome_bind, bind.
  erewrite write_out_single by reflexivity.
  do 2 eexists. split; [reflexivity|]. simpl. repeat split.
Qed.

(** The scenario of the specification: 3.0 at time 10 times 4.0 at time 20
    gives 12.0 at time 10. *)
Lemma run_multiplies_and_takes_first_timestamp_witness :
  exists (m' : Mul float float float) (o' : Output float),
    run PrimFloat.mul Scenarios.multiplier = Returns m'
    /\ out (base m') = Single o'
    /\ getValue (getSignal o') = (3 * 4)%float
    /\ getTimestamp (getSignal o') = Some 10%N
    /\ in1 m' = in1 Scenarios.multiplier /\ in2 m' = in2 Scenarios.multiplier
    /\ owner o' = Some 3%N /\ setOwner_calls o' = 1 /\ U o' = SIUnit.dimensionless.
Proof.
  apply (run_multiplies_and_takes_first_timestamp float float float PrimFloat.mul
           Scenarios.multiplier
           (mkPort SIUnit.dimensionless (mkSignal 0%float None) (Some 3%N) 1)).
  reflexivity.
Defined.

Example multiplier_scenario :
  (3 * 4)%float = 12%float
  /\ run PrimFloat.mul Scenarios.multiplier
     = Returns (mkMul (mkBlockio 3%N "mul" Empty
                         (Single (mkPort SIUnit.dimensionless
                                    (mkSignal 12%float (Some 10%N)) (Some 3%N) 1)))
                      (in1 Scenarios.multiplier) (in2 Scenarios.multiplier)).
Proof. split; reflexivity. Qed.

End Mul_facts.

(** ** DeMux *)

Module DeMux_facts.
Import Control Blockio DeMux.

(** The counted loop: a property that holds before, and that every round
    in range carries from [i] to [i + 1] while returning, holds after the
    last round, and the loop returns. *)
Lemma for_loop_invariant {S : Type} (body : nat -> S -> outcome S) (I : nat -> S -> Prop) :
  forall (count first : nat) (s : S),
    (forall i s0, first <= i < first + count -> I i s0 ->
                  exists s1, body i s0 = Returns s1 /\ I (Datatypes.S i) s1) ->
    I first s ->
    exists s', for_loop count first body s = Returns s' /\ I (first + count) s'.
Proof.
  induction count as [|count IH]; intros first s Hbody Hs.
  - exists s. split; [reflexivity|]. rewrite Nat.add_0_r. exact Hs.
  - destruct (Hbody first s) as (s1 & Hs1 & HI1); [lia | exact Hs |].
    destruct (IH (Datatypes.S first) s1) as (s' & Hrun & HI'); [|exact HI1|].
    + intros i s0 Hi. apply Hbody. lia.
    + exists s'. simpl. rewrite Hs1. simpl. split; [exact Hrun|].
      replace (first + Datatypes.S count) with (Datatypes.S first + count) by lia.
      exact HI'.
Qed.

Section DeMux_run.
Context {T C : Type} (component : C -> nat -> T).
Variables (d : Blockio C T) (inp : Input C) (outs : list (Output T)).
Hypothesis Hin : in_ d = Single inp.
Hypothesis Hout : out d = Array outs.

Lemma rounds_done_start : rounds_done component d inp outs 0 d.
Proof.
  unfold rounds_done. repeat split.
  exists outs. repeat split; [exact Hout|]. intros i Hi. lia.
Qed.

Lemma rounds_done_step (k : nat) (d' : Blockio C T) :
  rounds_done component d inp outs k d' ->
  exists d'', body component k d' = Returns d''
              /\ rounds_done component d inp outs (S k) d''.
Proof.
  intros (Hthis & Hname & Hin' & outs' & Hout' & Hlen & Hsame & Hdone).
  unfold body, read_in, write_out.
  rewrite Hin', Hin. simpl. rewrite Hout'. simpl.
  eexists. split; [reflexivity|].
  unfold rounds_done; simpl. repeat split; try assumption; [symmetry; exact Hin|].
  eexists. split; [reflexivity|]. split; [|split].
  - rewrite !length_alter. exact Hlen.
  - rewrite <- Hsame. apply list_eq. intros j.
    rewrite !list_lookup_fmap.
    destruct (decide (k = j)) as [->|Hne].
    + rewrite !list_lookup_alter_eq. destruct (_ !! j); reflexivity.
    + rewrite !list_lookup_alter_ne by assumption. reflexivity.
  - intros i Hi Hilen.
    destruct (decide (k = i)) as [->|Hne].
    + rewrite !list_lookup_alter_eq.
      destruct (lookup_lt_is_Some_2 outs' i) as [o Ho]; [lia|].
      rewrite Ho. simpl. eexists. split; [reflexivity|]. split; reflexivity.
    + rewrite !list_lookup_alter_ne by assumption.
      apply Hdone; [lia | assumption].
Qed.

End DeMux_run.


(** C8.  One [run()] of a demultiplexer with [N] outputs returns, and
    afterwards every output [i < N] holds the [i]-th component of the value
    the input held and the timestamp of the input; the input is as
    before. *)
Theorem run_copies_components :
  forall (T C : Type) (component : C -> nat -> T) (N : nat)
         (d : Blockio C T) (inp : Input C) (outs : list (Output T)),
    in_ d = Single inp -> out d = Array outs -> length outs = N ->
    exists (d' : Blockio C T) (outs' : list (Output T)),
      run component N d = Returns d'
      /\ in_ d' = Single inp
      /\ out d' = Array outs' /\ length outs' = N
      /\ forall i, i < N ->
           exists o, port_at (out d') (Element i) = Some o
             /\ getValue (getSignal o) = component (getValue (getSignal inp)) i
             /\ getTimestamp (getSignal o) = getTimestamp (getSignal inp).
Proof.
  intros T C component N d inp outs Hin Hout Hlen.
  unfold run. rewrite Hin, Hout.
  destruct (for_loop_invariant (body component) (rounds_done component d inp outs)
              N 0 d) as (d' & Hrun & Hdone).
  - intros i s0 _ Hs0. apply rounds_done_step; assumption.
  - apply rounds_done_start. exact Hout.
  - destruct Hdone as (_ & _ & Hin' & outs' & Hout' & Hlen' & _ & Hall).
    exists d', outs'. split; [exact Hrun|]. split; [congruence|].
    split; [exact Hout'|]. split; [congruence|].
    intros i Hi. rewrite Hout'. simpl. apply Hall; lia.
Qed.

(** The scenario of the specification: the input [1, 2, 3] at time 5. *)
Lemma run_copies_components_witness :
  exists (d' : Blockio (list Z) Z) (outs' : list (Output Z)),
    run Scenarios.entry 3 Scenarios.demux3 = Returns d'
    /\ in_ d' = Single (mkPort SIUnit.dimensionless
                          (mkSignal [1%Z; 2%Z; 3%Z] (Some 5%N)) (Some 4%N) 1)
    /\ out d' = Array outs' /\ length outs' = 3
    /\ forall i, i < 3 ->
         exists o, port_at (out d') (Element i) = Some o
           /\ getValue (getSignal o) = Scenarios.entry [1%Z; 2%Z; 3%Z] i
           /\ getTimestamp (getSignal o) = Some 5%N.
Proof.
  apply (run_copies_components Z (list Z) Scenarios.entry 3 Scenarios.demux3
           (mkPort SIUnit.dimensionless (mkSignal [1%Z; 2%Z; 3%Z] (Some 5%N)) (Some 4%N) 1)
           (replicate 3 (mkPort SIUnit.dimensionless (mkSignal 0%Z None) (Some 4%N) 1)));
    reflexivity.
Defined.

Example demux3_scenario :
  run Scenarios.entry 3 Scenarios.demux3
  = Returns (mkBlockio 4%N "demux"
               (Single (mkPort SIUnit.dimensionless
                          (mkSignal [1%Z; 2%Z; 3%Z] (Some 5%N)) (Some 4%N) 1))
               (Array [mkPort SIUnit.dimensionless (mkSignal 1%Z (Some 5%N)) (Some 4%N) 1;
                       mkPort SIUnit.dimensionless (mkSignal 2%Z (Some 5%N)) (Some 4%N) 1;
                       mkPort SIUnit.dimensionless (mkSignal 3%Z (Some 5%N)) (Some 4%N) 1])).
Proof. reflexivity. Qed.

End DeMux_facts.

(** ** Ownership of the ports *)

Module Ownership_facts.
Import Control Blockio.

(** A write to the signal of a port leaves its owner alone. *)
Lemma ownership_for_each_onSignal {T : Type} (f : Signal T -> Signal T)
  (s : ports (Port T)) :
  ownership (for_each (onSignal f) s) = ownership s.
Proof.
  unfold ownership. rewrite Blockio_facts.ports_list_for_each, <- list_fmap_compose.
  apply list_fmap_ext. intros i p _. reflexivity.
Qed.

Lemma ownership_alter_onSignal {T : Type} (f : Signal T -> Signal T) (i : nat)
  (ps : list (Port T)) :
  ownership (Array (alter (onSignal f) i ps)) = ownership (Array ps).
Proof.
  unfold ownership; simpl. apply list_eq. intros j.
  rewrite !list_lookup_fmap.
  destruct (decide (i = j)) as [->|Hne].
  - rewrite list_lookup_alter_eq. destruct (_ !! j); reflexivity.
  - rewrite list_lookup_alter_ne by assumption. reflexivity.
Qed.

(** A counted loop keeps what each of its rounds keeps. *)
Lemma for_loop_preserves {S : Type} (body : nat -> S -> outcome S) (R : S -> Prop) :
  (forall i s s', R s -> body i s = Returns s' -> R s') ->
  forall (count first : nat) (s s' : S),
    R s -> for_loop count first body s = Returns s' -> R s'.
Proof.
  intros Hbody. induction count as [|count IH]; intros first s s' Hs; simpl.
  - intros [= <-]. exact Hs.
  - destruct (body first s) as [|f|s1] eqn:E; simpl; try discriminate.
    apply IH. eapply Hbody; eassumption.
Qed.

Lemma DeMux_write_out_ownership {T C : Type} (i : nat) (f : Signal T -> Signal T)
  (d d' : Blockio C T) :
  DeMux.write_out i f d = Returns d' ->
  ownership (out d') = ownership (out d) /\ in_ d' = in_ d.
Proof.
  unfold DeMux.write_out. destruct (out d) as [|p|ps|ps]; try discriminate.
  intros [= <-]. simpl. split; [apply ownership_alter_onSignal | reflexivity].
Qed.

Lemma DeMux_body_ownership {T C : Type} (component : C -> nat -> T) (i : nat)
  (d d' : Blockio C T) :
  DeMux.body component i d = Returns d' ->
  ownership (out d') = ownership (out d) /\ in_ d' = in_ d.
Proof.
  unfold DeMux.body, mbind, outcome_bind, bind.
  destruct (DeMux.read_in d) as [|f|s]; try discriminate.
  destruct (DeMux.write_out i _ d) as [|f|d1] eqn:E1; try discriminate.
  destruct (DeMux.read_in d1) as [|f|s1]; try discriminate.
  intros E2.
  apply DeMux_write_out_ownership in E1, E2.
  destruct E1 as [Ho1 Hi1], E2 as [Ho2 Hi2]. split; congruence.
Qed.

Lemma DeMux_run_ownership {T C : Type} (component : C -> nat -> T) (N : nat)
  (d d' : Blockio C T) :
  DeMux.run component N d = Returns d' ->
  ownership (out d') = ownership (out d) /\ in_ d' = in_ d.
Proof.
  unfold DeMux.run.
  destruct (in_ d) as [|inp|ins|ins] eqn:Hin; try discriminate.
  destruct (out d) as [|o|outs|outs] eqn:Hout; try discriminate.
  rewrite <- Hin, <- Hout.
  apply (for_loop_preserves (DeMux.body component)
           (fun s => ownership (out s) = ownership (out d) /\ in_ s = in_ d)).
  - intros i s s' [Ho Hi] Hb. apply DeMux_body_ownership in Hb.
    destruct Hb as [Ho' Hi']. split; congruence.
  - split; reflexivity.
Qed.

Lemma Mul_write_out_ownership {In1T In2T OutT : Type} (f : Signal OutT -> Signal OutT)
  (m m' : Mul.Mul In1T In2T OutT) :
  Mul.write_out f m = Returns m' ->
  ownership (out (Mul.base m')) = ownership (out (Mul.base m))
  /\ in_ (Mul.base m') = in_ (Mul.base m)
  /\ Mul.in1 m' = Mul.in1 m /\ Mul.in2 m' = Mul.in2 m.
Proof.
  unfold Mul.write_out. destruct (out (Mul.base m)) as [|p|ps|ps]; try discriminate.
  intros [= <-]. simpl. repeat split.
Qed.

Lemma Mul_run_ownership {In1T In2T OutT : Type} (mul : In1T -> In2T -> OutT)
  (m m' : Mul.Mul In1T In2T OutT) :
  Mul.run mul m = Returns m' ->
  ownership (out (Mul.base m')) = ownership (out (Mul.base m))
  /\ in_ (Mul.base m') = in_ (Mul.base m)
  /\ Mul.in1 m' = Mul.in1 m /\ Mul.in2 m' = Mul.in2 m.
Proof.
  unfold Mul.run, mbind, outcome_bind, bind.
  destruct (Mul.write_out _ m) as [|f|m1] eqn:E1; try discriminate.
  intros E2. apply Mul_write_out_ownership in E1, E2.
  destruct E1 as (Ho1 & Hi1 & Ha1 & Hb1), E2 as (Ho2 & Hi2 & Ha2 & Hb2).
  repeat split; congruence.
Qed.

(** C6.  A constructed block has [N] inputs and [M] outputs, and every one
    of them has the constructing block as its owner, set by exactly one
    call of [setOwner].  Afterwards the owner stays: a write to the signal
    of a port, a [run()] of a multiplier and a [run()] of a demultiplexer
    leave every owner, and the count of [setOwner] calls, as they were. *)
Theorem owner_set_once_at_construction :
  forall (Tin Tout : Type) (Z0 : Zero Tout) (N M : nat) (Uin Uout : list SIUnit.t)
         (fresh_in : Signal Tin) (fresh_out : Signal Tout)
         (self : BlockRef) (name : string),
    let b := construct N M Uin Uout fresh_in fresh_out self name in
    this b = self
    /\ length (ports_list (in_ b)) = N
    /\ length (ports_list (out b)) = M
    /\ Forall (fun p => owner p = Some self /\ setOwner_calls p = 1) (ports_list (in_ b))
    /\ Forall (fun p => owner p = Some self /\ setOwner_calls p = 1) (ports_list (out b))
    /\ (forall (f : Signal Tout -> Signal Tout),
          ownership (for_each (onSignal f) (out b)) = ownership (out b))
    /\ (forall (In1T In2T : Type) (mul : In1T -> In2T -> Tout)
               (m m' : Mul.Mul In1T In2T Tout),
          Mul.run mul m = Returns m' ->
          ownership (out (Mul.base m')) = ownership (out (Mul.base m))
          /\ in_ (Mul.base m') = in_ (Mul.base m)
          /\ Mul.in1 m' = Mul.in1 m /\ Mul.in2 m' = Mul.in2 m)
    /\ (forall (component : Tin -> nat -> Tout) (b' : Blockio Tin Tout),
          DeMux.run component M b = Returns b' ->
          ownership (out b') = ownership (out b) /\ in_ b' = in_ b).
Proof.
  intros Tin Tout Z0 N M Uin Uout fresh_in fresh_out self name b.
  destruct (Blockio_facts.generated_ports N Uin fresh_in) as [HlenN HdefN].
  destruct (Blockio_facts.generated_ports M Uout fresh_out) as [HlenM HdefM].
  split; [reflexivity|].
  unfold b. rewrite Blockio_facts.in_construct, Blockio_facts.out_construct.
  split; [rewrite length_fmap; exact HlenN|].
  split; [rewrite length_fmap; exact HlenM|].
  split; [|split].
  - apply Forall_fmap. eapply Forall_impl; [exact HdefN|].
    intros p [_ Hcalls]. simpl. rewrite Hcalls. split; reflexivity.
  - apply Forall_fmap. eapply Forall_impl; [exact HdefM|].
    intros p [_ Hcalls]. simpl. rewrite Hcalls. split; reflexivity.
  - split; [|split].
    + intros f. apply ownership_for_each_onSignal.
    + intros In1T In2T mul m m' Hrun.
      apply (Mul_run_ownership mul m m' Hrun).
    + intros component b' Hrun. apply (DeMux_run_ownership component M _ b' Hrun).
Qed.

End Ownership_facts.

(** ** ScalableInput *)

Module ScalableInput_facts.
Import ScalableInput.

Lemma construct_readings {T : Type} (id' : string) (libHandle' : N)
  (scale' offset' minIn' maxIn' : T) (unit' : SIUnit.t) :
  readings (construct id' libHandle' scale' offset' minIn' maxIn' unit')
  = (scale', offset', unit', minIn', maxIn').
Proof. reflexivity. Qed.

(** C9.  Each of the five setters makes its own getter return the value set
    and leaves the other four getters as they were, on every adapter, so in
    particular on one that the constructor has just built. *)
Theorem setters_write_one_field :
  forall (T : Type) (s : ScalableInput T) (v : T) (u : SIUnit.t),
    (getScale (setScale v s) = v
     /\ getOffset (setScale v s) = getOffset s /\ getUnit (setScale v s) = getUnit s
     /\ getMinIn (setScale v s) = getMinIn s /\ getMaxIn (setScale v s) = getMaxIn s)
    /\ (getOffset (setOffset v s) = v
     /\ getScale (setOffset v s) = getScale s /\ getUnit (setOffset v s) = getUnit s
     /\ getMinIn (setOffset v s) = getMinIn s /\ getMaxIn (setOffset v s) = getMaxIn s)
    /\ (getUnit (setUnit u s) = u
     /\ getScale (setUnit u s) = getScale s /\ getOffset (setUnit u s) = getOffset s
     /\ getMinIn (setUnit u s) = getMinIn s /\ getMaxIn (setUnit u s) = getMaxIn s)
    /\ (getMinIn (setMinIn v s) = v
     /\ getScale (setMinIn v s) = getScale s /\ getOffset (setMinIn v s) = getOffset s
     /\ getUnit (setMinIn v s) = getUnit s /\ getMaxIn (setMinIn v s) = getMaxIn s)
    /\ (getMaxIn (setMaxIn v s) = v
     /\ getScale (setMaxIn v s) = getScale s /\ getOffset (setMaxIn v s) = getOffset s
     /\ getUnit (setMaxIn v s) = getUnit s /\ getMinIn (setMaxIn v s) = getMinIn s)
    /\ (forall (id' : string) (libHandle' : N) (scale' offset' minIn' maxIn' : T)
               (unit' : SIUnit.t),
          readings (setScale v
                      (construct id' libHandle' scale' offset' minIn' maxIn' unit'))
          = (v, offset', unit', minIn', maxIn')
          /\ readings (setUnit u
                      (construct id' libHandle' scale' offset' minIn' maxIn' unit'))
          = (scale', offset', u, minIn', maxIn')).
Proof.
  intros T s v u. destruct s as [i h sc off un mn mx].
  unfold getScale, getOffset, getUnit, getMinIn, getMaxIn; simpl.
  repeat split.
Qed.

Example analog_in_retuned :
  readings (setMaxIn 20%Z (setScale 3%Z Scenarios.analog_in))
  = (3%Z, 1%Z, SIUnit.Volt, (-10)%Z, 20%Z).
Proof. reflexivity. Qed.

End ScalableInput_facts.

(** * Further properties *)

(** ** SIUnit: the strict order and the default arrays *)

Module SIUnit_more.
Import SIUnit.

(** X1.  [<] (from the defaulted [<=>]) is a strict total order on units:
    irreflexive, transitive, asymmetric, and of two units either one is
    below the other or they are the same unit; [u < v] is the negation of
    [v <= u]. *)
Theorem ltb_strict_total_order :
  (forall u : t, ltb u u = false)
  /\ (forall u v w : t, ltb u v = true -> ltb v w = true -> ltb u w = true)
  /\ (forall u v : t, ltb u v = true -> ltb v u = false)
  /\ (forall u v : t, ltb u v = true \/ u = v \/ ltb v u = true)
  /\ (forall u v : t, ltb u v = negb (leb v u)).
Proof.
  unfold ltb, leb. repeat apply conj.
  - intros u. rewrite (proj2 (SIUnit_facts.compare_eq u u) eq_refl). reflexivity.
  - intros u v w Huv Hvw.
    destruct (compare u v) eqn:Euv; try discriminate.
    destruct (compare v w) eqn:Evw; try discriminate.
    rewrite (SIUnit_facts.compare_lt_trans u v w Euv Evw). reflexivity.
  - intros u v. rewrite (SIUnit_facts.compare_antisym u v).
    destruct (compare u v); simpl; congruence.
  - intros u v. rewrite (SIUnit_facts.compare_antisym u v).
    destruct (compare u v) eqn:E; simpl; auto.
    right; left. apply SIUnit_facts.compare_eq, E.
  - intros u v. rewrite (SIUnit_facts.compare_antisym v u).
    destruct (compare v u); reflexivity.
Qed.

Lemma generateNSizeArray_replicate (N : nat) :
  generateNSizeArray N = replicate N dimensionless.
Proof.
  unfold generateNSizeArray, createArray. generalize 0.
  induction N as [|N IH]; intros k; simpl; [reflexivity|].
  f_equal. apply IH.
Qed.

(** X2.  [generateNSizeArray<N>()] holds exactly [N] units, every one of
    them equal (by [==]) to [SIUnit::create()], for every [N], zero
    included. *)
Theorem generateNSizeArray_all_dimensionless :
  forall N : nat,
    Datatypes.length (generateNSizeArray N) = N
    /\ Forall (fun u => eqb u dimensionless = true) (generateNSizeArray N)
    /\ (forall i, i < N -> generateNSizeArray N !! i = Some dimensionless)
    /\ (forall i, N <= i -> generateNSizeArray N !! i = None).
Proof.
  intros N. rewrite generateNSizeArray_replicate. repeat split.
  - apply length_replicate.
  - apply Forall_replicate. reflexivity.
  - intros i Hi. apply lookup_replicate_2. exact Hi.
  - intros i Hi. apply lookup_ge_None. rewrite length_replicate. exact Hi.
Qed.

End SIUnit_more.

(** ** Blockio: shapes, unit tags and the accessors *)

Module Blockio_more.
Import Control Blockio.

(** The shape and the size of what [generateNInputs] and [generateMOutputs]
    unfold to, by the count. *)
Lemma generated_shape {T : Type} (n : nat) (Us : list SIUnit.t) (fresh : Signal T) :
  let s := if n =? 1 then Single (Port_default fresh (unit_at Us 0))
           else if n =? 0 then Empty
           else if allDimensionLess Us
                then Array (replicate n (Port_default fresh SIUnit.dimensionless))
                else Tuple ((fun i => Port_default fresh (unit_at Us i)) <$> seq 0 n) in
  length (ports_list s) = n
  /\ (s = Empty <-> n = 0)
  /\ ((exists p, s = Single p) <-> n = 1)
  /\ ((exists ps, s = Array ps \/ s = Tuple ps) <-> 1 < n).
Proof.
  split; [apply Blockio_facts.generated_ports|].
  simpl. destruct (Nat.eqb_spec n 1) as [->|Hn1]; [|destruct (Nat.eqb_spec n 0) as [->|Hn0]].
  - repeat split; try discriminate; try lia.
    + intros _. eexists. reflexivity.
    + intros [ps [Hps|Hps]]; discriminate.
  - repeat split; try discriminate; try lia.
    + intros [p Hp]. discriminate.
    + intros [ps [Hps|Hps]]; discriminate.
  - destruct (allDimensionLess Us); repeat split; try discriminate; try lia;
      try (intros [p Hp]; discriminate); intros _; eexists; eauto.
Qed.

(** X3.  The storage of a side follows its count alone: no ports for 0,
    the port itself for 1, a collection (array or tuple) for more than 1;
    and it always holds exactly as many ports as the count says.  For the
    inputs and for the outputs. *)
Theorem storage_shape_follows_count :
  forall (Tin Tout : Type) (N M : nat) (Uin Uout : list SIUnit.t)
         (fresh_in : Signal Tin) (fresh_out : Signal Tout),
    (length (ports_list (generateNInputs N Uin fresh_in)) = N
     /\ (generateNInputs N Uin fresh_in = Empty <-> N = 0)
     /\ ((exists p, generateNInputs N Uin fresh_in = Single p) <-> N = 1)
     /\ ((exists ps, generateNInputs N Uin fresh_in = Array ps
                     \/ generateNInputs N Uin fresh_in = Tuple ps) <-> 1 < N))
    /\ (length (ports_list (generateMOutputs M Uout fresh_out)) = M
     /\ (generateMOutputs M Uout fresh_out = Empty <-> M = 0)
     /\ ((exists p, generateMOutputs M Uout fresh_out = Single p) <-> M = 1)
     /\ ((exists ps, generateMOutputs M Uout fresh_out = Array ps
                     \/ generateMOutputs M Uout fresh_out = Tuple ps) <-> 1 < M)).
Proof.
  intros Tin Tout N M Uin Uout fresh_in fresh_out. split.
  - exact (generated_shape N Uin fresh_in).
  - exact (generated_shape M Uout fresh_out).
Qed.

Lemma unit_at_seq (Us : list SIUnit.t) :
  (fun i => unit_at Us i) <$> seq 0 (length Us) = Us.
Proof.
  apply list_eq. intros i. rewrite list_lookup_fmap.
  destruct (decide (i < length Us)) as [Hi|Hi].
  - rewrite lookup_seq_lt by exact Hi. simpl.
    destruct (lookup_lt_is_Some_2 Us i Hi) as [u Hu]. rewrite Hu.
    unfold unit_at. f_equal. apply nth_lookup_Some with (d := SIUnit.dimensionless) in Hu.
    exact Hu.
  - rewrite lookup_seq_ge by lia. rewrite lookup_ge_None_2 by lia. reflexivity.
Qed.

(** The unit tags of what [generateNInputs] and [generateMOutputs] unfold
    to, when the unit array has the length of the count. *)
Lemma generated_units {T : Type} (n : nat) (Us : list SIUnit.t) (fresh : Signal T) :
  length Us = n ->
  U <$> ports_list
          (if n =? 1 then Single (Port_default fresh (unit_at Us 0))
           else if n =? 0 then Empty
           else if allDimensionLess Us
                then Array (replicate n (Port_default fresh SIUnit.dimensionless))
                else Tuple ((fun i => Port_default fresh (unit_at Us i)) <$> seq 0 n))
  = Us.
Proof.
  intros Hlen.
  destruct (Nat.eqb_spec n 1) as [Hn1|Hn1]; [|destruct (Nat.eqb_spec n 0) as [Hn0|Hn0]].
  - destruct Us as [|u [|u' Us]]; simpl in Hlen; try lia. reflexivity.
  - destruct Us; simpl in Hlen; try lia. reflexivity.
  - destruct (allDimensionLess Us) eqn:E; simpl.
    + apply Blockio_facts.allDimensionLess_Forall in E.
      rewrite fmap_replicate. simpl. apply replicate_as_Forall. split; [exact Hlen|].
      eapply Forall_impl; [exact E|]. intros u Hu. symmetry. exact Hu.
    + rewrite <- list_fmap_compose. subst n. apply unit_at_seq.
Qed.

(** X4.  When the unit arrays have the length of the counts, the ports of a
    constructed block carry the declared units, port [i] the unit [i], on
    both sides and in every storage shape; and construction leaves the
    signal of every input as its default constructor made it, since only
    the outputs are cleared. *)
Theorem construct_tags_ports_with_declared_units :
  forall (Tin Tout : Type) (Z0 : Zero Tout) (N M : nat) (Uin Uout : list SIUnit.t)
         (fresh_in : Signal Tin) (fresh_out : Signal Tout)
         (self : BlockRef) (name : string),
    length Uin = N -> length Uout = M ->
    U <$> ports_list (in_ (construct N M Uin Uout fresh_in fresh_out self name)) = Uin
    /\ U <$> ports_list (out (construct N M Uin Uout fresh_in fresh_out self name)) = Uout
    /\ Forall (fun p => getSignal p = fresh_in)
         (ports_list (in_ (construct N M Uin Uout fresh_in fresh_out self name)))
    /\ getName (construct N M Uin Uout fresh_in fresh_out self name) = name.
Proof.
  intros Tin Tout Z0 N M Uin Uout fresh_in fresh_out self name HN HM.
  rewrite Blockio_facts.in_construct, Blockio_facts.out_construct.
  rewrite <- !list_fmap_compose.
  repeat split.
  - rewrite <- (generated_units N Uin fresh_in HN) at 2. apply list_fmap_ext.
    intros i p _. reflexivity.
  - rewrite <- (generated_units M Uout fresh_out HM) at 2. apply list_fmap_ext.
    intros i p _. reflexivity.
  - apply Forall_fmap, Forall_forall. intros p Hp.
    unfold generateNInputs, createInputs in Hp.
    destruct (N =? 1); [|destruct (N =? 0); [|destruct (allDimensionLess Uin)]];
      simpl in Hp.
    + apply list_elem_of_singleton in Hp. subst p. reflexivity.
    + apply elem_of_nil in Hp. contradiction.
    + apply elem_of_replicate in Hp. destruct Hp as [-> _]. reflexivity.
    + apply list_elem_of_fmap in Hp. destruct Hp as (i & -> & _). reflexivity.
Qed.

Lemma construct_tags_ports_with_declared_units_witness :
  U <$> ports_list (in_ Scenarios.mixed)
    = [SIUnit.Watt; SIUnit.Newton; SIUnit.Watt]
  /\ U <$> ports_list (out Scenarios.mixed) = [SIUnit.Volt]
  /\ Forall (fun p => getSignal p = Scenarios.stale) (ports_list (in_ Scenarios.mixed))
  /\ getName Scenarios.mixed = "mixed".
Proof.
  apply (construct_tags_ports_with_declared_units Z Z _ 3 1
           [SIUnit.Watt; SIUnit.Newton; SIUnit.Watt] [SIUnit.Volt]
           Scenarios.stale Scenarios.stale 2%N "mixed"); reflexivity.
Defined.

(** A side of more than one port whose member has the generated type is
    the array or the tuple of that many ports, by the units, and its tags
    are those of the generated ports. *)
Lemma many_side {T : Type} (n : nat) (Us : list SIUnit.t) (fresh : Signal T)
  (s : ports (Port T)) :
  same_type U s
    (if n =? 1 then Single (Port_default fresh (unit_at Us 0))
     else if n =? 0 then Empty
     else if allDimensionLess Us
          then Array (replicate n (Port_default fresh SIUnit.dimensionless))
          else Tuple ((fun i => Port_default fresh (unit_at Us i)) <$> seq 0 n)) ->
  1 < n ->
  exists ps,
    length ps = n
    /\ ((s = Array ps /\ Forall (fun u => u = SIUnit.dimensionless) Us)
        \/ (s = Tuple ps /\ ~ Forall (fun u => u = SIUnit.dimensionless) Us))
    /\ (length Us = n -> U <$> ps = Us).
Proof.
  intros Hs Hn.
  pose proof (generated_units n Us fresh) as Hunits.
  destruct (Blockio_facts.many_not_one_nor_none n Hn) as [E1 E0].
  rewrite E1, E0 in Hs, Hunits.
  destruct (allDimensionLess Us) eqn:E.
  - apply Blockio_facts.allDimensionLess_Forall in E.
    destruct s as [|p|ps|ps]; simpl in Hs; try contradiction.
    exists ps. split; [|split].
    + rewrite <- (length_fmap U ps), Hs, length_fmap. apply length_replicate.
    + left. split; [reflexivity | exact E].
    + intros Hlen. rewrite Hs. apply Hunits, Hlen.
  - apply Blockio_facts.allDimensionLess_false in E.
    destruct s as [|p|ps|ps]; simpl in Hs; try contradiction.
    exists ps. split; [|split].
    + rewrite <- (length_fmap U ps), Hs, !length_fmap. apply length_seq.
    + right. split; [reflexivity | exact E].
    + intros Hlen. rewrite Hs. apply Hunits, Hlen.
Qed.

(** The compile-time indexed accessor on a collection of [n] ports. *)
Lemma static_access {T : Type} (n I : nat) (s : ports (Port T)) (ps : list (Port T)) :
  s = Array ps \/ s = Tuple ps -> length ps = n -> 1 < n ->
  let r := if 1 <? n then
             match s with
             | Array qs | Tuple qs =>
                 if I <? length qs then Returns (Element I) else IllFormed
             | _ => IllFormed
             end
           else IllFormed in
  (r = Returns (Element I) <-> I < n)
  /\ (n <= I -> r = IllFormed)
  /\ (forall f, r <> Throws f)
  /\ (I < n -> exists p, port_at s (Element I) = Some p /\ ps !! I = Some p).
Proof.
  intros Hs Hlen Hn. simpl.
  rewrite (proj2 (Nat.ltb_lt 1 n) Hn).
  assert (Hport : I < n ->
            exists p, port_at s (Element I) = Some p /\ ps !! I = Some p).
  { intros HI. destruct (lookup_lt_is_Some_2 ps I) as [p Hp]; [lia|].
    exists p. destruct Hs as [-> | ->]; simpl; split; assumption. }
  destruct Hs as [-> | ->]; rewrite Hlen;
    (destruct (Nat.ltb_spec I n) as [HI|HI]; repeat split;
     try discriminate; try lia; try (intros; reflexivity); try exact Hport).
Qed.

(** X5.  In a block that has its generated type, [getIn<I>()] on more than
    one input is checked at compile time and never at run time: it returns
    element [I] exactly when [I < N], it does not compile when [I >= N], and
    it never throws; this holds for the array and for the tuple alike, and
    the port it designates carries the unit [Uin[I]].  The same for
    [getOut<I>()]. *)
Theorem static_index_checked_at_compile_time :
  forall (Tin Tout : Type) (N M : nat) (Uin Uout : list SIUnit.t)
         (fresh_in : Signal Tin) (fresh_out : Signal Tout)
         (b : Blockio Tin Tout) (I : nat),
    well_typed N M Uin Uout fresh_in fresh_out b ->
    (1 < N ->
       (getIn_at N I b = Returns (Element I) <-> I < N)
       /\ (N <= I -> getIn_at N I b = IllFormed)
       /\ (forall f, getIn_at N I b <> Throws f)
       /\ (I < N -> length Uin = N ->
             exists p, port_at (in_ b) (Element I) = Some p /\ U p = unit_at Uin I))
    /\ (1 < M ->
       (getOut_at M I b = Returns (Element I) <-> I < M)
       /\ (M <= I -> getOut_at M I b = IllFormed)
       /\ (forall f, getOut_at M I b <> Throws f)
       /\ (I < M -> length Uout = M ->
             exists p, port_at (out b) (Element I) = Some p /\ U p = unit_at Uout I)).
Proof.
  intros Tin Tout N M Uin Uout fresh_in fresh_out b I [Hin Hout]. split.
  - intros HN.
    destruct (many_side N Uin fresh_in (in_ b) Hin HN) as (ps & Hlen & Hshape & Hunits).
    assert (Hs : in_ b = Array ps \/ in_ b = Tuple ps) by (destruct Hshape as [[? _]|[? _]]; auto).
    destruct (static_access N I (in_ b) ps Hs Hlen HN) as (H1 & H2 & H3 & H4).
    repeat split; try apply H1; try exact H2; try exact H3.
    intros HI HU. destruct (H4 HI) as (p & Hp & Hlook).
    exists p. split; [exact Hp|].
    apply (list_lookup_fmap_Some_2 U) in Hlook. rewrite (Hunits HU) in Hlook.
    unfold unit_at. symmetry. apply nth_lookup_Some with (d := SIUnit.dimensionless) in Hlook.
    exact Hlook.
  - intros HM.
    destruct (many_side M Uout fresh_out (out b) Hout HM) as (ps & Hlen & Hshape & Hunits).
    assert (Hs : out b = Array ps \/ out b = Tuple ps) by (destruct Hshape as [[? _]|[? _]]; auto).
    destruct (static_access M I (out b) ps Hs Hlen HM) as (H1 & H2 & H3 & H4).
    repeat split; try apply H1; try exact H2; try exact H3.
    intros HI HU. destruct (H4 HI) as (p & Hp & Hlook).
    exists p. split; [exact Hp|].
    apply (list_lookup_fmap_Some_2 U) in Hlook. rewrite (Hunits HU) in Hlook.
    unfold unit_at. symmetry. apply nth_lookup_Some with (d := SIUnit.dimensionless) in Hlook.
    exact Hlook.
Qed.

Lemma static_index_checked_at_compile_time_witness :
  (getIn_at 3 1 Scenarios.mixed = Returns (Element 1) <-> 1 < 3)
  /\ (3 <= 1 -> getIn_at 3 1 Scenarios.mixed = IllFormed)
  /\ (forall f, getIn_at 3 1 Scenarios.mixed <> Throws f)
  /\ (1 < 3 -> length [SIUnit.Watt; SIUnit.Newton; SIUnit.Watt] = 3 ->
        exists p, port_at (in_ Scenarios.mixed) (Element 1) = Some p
                  /\ U p = unit_at [SIUnit.Watt; SIUnit.Newton; SIUnit.Watt] 1).
Proof.
  apply (proj1 (static_index_checked_at_compile_time Z Z 3 1
                  [SIUnit.Watt; SIUnit.Newton; SIUnit.Watt] [SIUnit.Volt]
                  Scenarios.stale Scenarios.stale Scenarios.mixed 1
                  (conj eq_refl eq_refl))).
  lia.
Defined.

(** X6.  In a block that has its generated type, the runtime-index
    accessor exists only over dimensionless units: on a side of more than
    one port where some declared unit is not [SIUnit::create()] the storage
    is the tuple and [getIn(i)] ([getOut(i)]) compiles for no [i]; it then
    neither returns nor throws. *)
Theorem runtime_index_needs_dimensionless_units :
  forall (Tin Tout : Type) (N M : nat) (Uin Uout : list SIUnit.t)
         (fresh_in : Signal Tin) (fresh_out : Signal Tout)
         (b : Blockio Tin Tout),
    well_typed N M Uin Uout fresh_in fresh_out b ->
    (1 < N -> ~ Forall (fun u => u = SIUnit.dimensionless) Uin ->
       (exists ps, in_ b = Tuple ps /\ length ps = N)
       /\ forall i, getIn N b i = IllFormed)
    /\ (1 < M -> ~ Forall (fun u => u = SIUnit.dimensionless) Uout ->
       (exists ps, out b = Tuple ps /\ length ps = M)
       /\ forall i, getOut M b i = IllFormed).
Proof.
  intros Tin Tout N M Uin Uout fresh_in fresh_out b [Hin Hout]. split.
  - intros HN HF.
    destruct (many_side N Uin fresh_in (in_ b) Hin HN) as (ps & Hlen & Hshape & _).
    destruct Hshape as [[_ Hall]|[Hps _]]; [contradiction|].
    split; [exists ps; split; assumption|].
    intros i. unfold getIn. rewrite Hps. destruct (1 <? N); reflexivity.
  - intros HM HF.
    destruct (many_side M Uout fresh_out (out b) Hout HM) as (ps & Hlen & Hshape & _).
    destruct Hshape as [[_ Hall]|[Hps _]]; [contradiction|].
    split; [exists ps; split; assumption|].
    intros i. unfold getOut. rewrite Hps. destruct (1 <? M); reflexivity.
Qed.

Lemma runtime_index_needs_dimensionless_units_witness :
  (exists ps, in_ Scenarios.mixed = Tuple ps /\ length ps = 3)
  /\ forall i, getIn 3 Scenarios.mixed i = IllFormed.
Proof.
  apply (proj1 (runtime_index_needs_dimensionless_units Z Z 3 1
                  [SIUnit.Watt; SIUnit.Newton; SIUnit.Watt] [SIUnit.Volt]
                  Scenarios.stale Scenarios.stale Scenarios.mixed
                  (conj eq_refl eq_refl))).
  - lia.
  - intros HF. apply Forall_cons in HF. destruct HF as [HW _]. discriminate HW.
Defined.

(** The three accessors of one side, by the count. *)
Lemma accessors_of_side {T : Type} (n : nat) (Us : list SIUnit.t) (fresh : Signal T)
  (s : ports (Port T)) :
  same_type U s
    (if n =? 1 then Single (Port_default fresh (unit_at Us 0))
     else if n =? 0 then Empty
     else if allDimensionLess Us
          then Array (replicate n (Port_default fresh SIUnit.dimensionless))
          else Tuple ((fun i => Port_default fresh (unit_at Us i)) <$> seq 0 n)) ->
  (n = 0 -> s = Empty)
  /\ (n = 1 -> exists p, s = Single p /\ U p = unit_at Us 0).
Proof.
  intros Hs. split.
  - intros ->. simpl in Hs. destruct s; simpl in Hs; try contradiction. reflexivity.
  - intros ->. simpl in Hs. destruct s as [|p|ps|ps]; simpl in Hs; try contradiction.
    exists p. split; [reflexivity | exact Hs].
Qed.

(** X7.  Which accessors a side offers follows its count.  With no input
    none of [getIn()], [getIn(i)], [getIn<I>()] compiles; with one input
    only [getIn()] does, and it designates the single port, tagged
    [Uin[0]]; with more than one input [getIn()] does not compile.  The
    same for the outputs. *)
Theorem accessors_follow_count :
  forall (Tin Tout : Type) (N M : nat) (Uin Uout : list SIUnit.t)
         (fresh_in : Signal Tin) (fresh_out : Signal Tout)
         (b : Blockio Tin Tout),
    well_typed N M Uin Uout fresh_in fresh_out b ->
    ((N = 0 -> in_ b = Empty /\ getIn_one N b = IllFormed
               /\ forall i, getIn N b i = IllFormed /\ getIn_at N i b = IllFormed)
     /\ (N = 1 -> getIn_one N b = Returns Member
               /\ (exists p, port_at (in_ b) Member = Some p /\ U p = unit_at Uin 0)
               /\ forall i, getIn N b i = IllFormed /\ getIn_at N i b = IllFormed)
     /\ (1 < N -> getIn_one N b = IllFormed))
    /\ ((M = 0 -> out b = Empty /\ getOut_one M b = IllFormed
               /\ forall i, getOut M b i = IllFormed /\ getOut_at M i b = IllFormed)
     /\ (M = 1 -> getOut_one M b = Returns Member
               /\ (exists p, port_at (out b) Member = Some p /\ U p = unit_at Uout 0)
               /\ forall i, getOut M b i = IllFormed /\ getOut_at M i b = IllFormed)
     /\ (1 < M -> getOut_one M b = IllFormed)).
Proof.
  intros Tin Tout N M Uin Uout fresh_in fresh_out b [Hin Hout].
  destruct (accessors_of_side N Uin fresh_in (in_ b) Hin) as [Hin0 Hin1].
  destruct (accessors_of_side M Uout fresh_out (out b) Hout) as [Hout0 Hout1].
  split; (split; [|split]).
  - intros HN. rewrite (Hin0 HN). subst N. repeat split.
  - intros HN. destruct (Hin1 HN) as (p & Hp & Hu). subst N. split; [reflexivity|].
    split; [|intros i; split; reflexivity].
    exists p. rewrite Hp. split; [reflexivity | exact Hu].
  - intros HN. unfold getIn_one. rewrite (proj2 (Nat.eqb_neq N 1)) by lia. reflexivity.
  - intros HM. rewrite (Hout0 HM). subst M. repeat split.
  - intros HM. destruct (Hout1 HM) as (p & Hp & Hu). subst M. split; [reflexivity|].
    split; [|intros i; split; reflexivity].
    exists p. rewrite Hp. split; [reflexivity | exact Hu].
  - intros HM. unfold getOut_one. rewrite (proj2 (Nat.eqb_neq M 1)) by lia. reflexivity.
Qed.

Lemma accessors_follow_count_witness :
  getOut_one 1 Scenarios.mixed = Returns Member
  /\ (exists p, port_at (out Scenarios.mixed) Member = Some p
                /\ U p = unit_at [SIUnit.Volt] 0)
  /\ forall i, getOut 1 Scenarios.mixed i = IllFormed
               /\ getOut_at 1 i Scenarios.mixed = IllFormed.
Proof.
  apply (proj1 (proj2 (proj2 (accessors_follow_count Z Z 3 1
                  [SIUnit.Watt; SIUnit.Newton; SIUnit.Watt] [SIUnit.Volt]
                  Scenarios.stale Scenarios.stale Scenarios.mixed
                  (conj eq_refl eq_refl))))).
  reflexivity.
Defined.

(** X8.  A block declared without units, [Blockio<N, M, Tin, Tout>] with
    more than one input, always gets the array: its inputs are [N]
    dimensionless ports owned by the block, [getIn(i)] compiles for every
    [i], returns element [i] below [N] and throws the fault that names the
    block from [N] on. *)
Theorem default_units_give_runtime_access :
  forall (Tin Tout : Type) (Z0 : Zero Tout) (N M : nat) (Uout : list SIUnit.t)
         (fresh_in : Signal Tin) (fresh_out : Signal Tout)
         (self : BlockRef) (name : string) (i : nat),
    1 < N ->
    in_ (construct N M (SIUnit.generateNSizeArray N) Uout fresh_in fresh_out self name)
    = Array (replicate N (mkPort SIUnit.dimensionless fresh_in (Some self) 1))
    /\ getIn N (construct N M (SIUnit.generateNSizeArray N) Uout
                  fresh_in fresh_out self name) i
       = if N <=? i
         then Throws (IndexOutOfBoundsFault
                ("Trying to get inexistent element of input vector in block '"
                 +:+ name +:+ "'"))
         else Returns (Element i).
Proof.
  intros Tin Tout Z0 N M Uout fresh_in fresh_out self name i HN.
  assert (Hin : in_ (construct N M (SIUnit.generateNSizeArray N) Uout
                       fresh_in fresh_out self name)
                = Array (replicate N (mkPort SIUnit.dimensionless fresh_in (Some self) 1))).
  { unfold construct, initalizeInputsAndOutputs; simpl.
    rewrite (Blockio_facts.generateNInputs_many N _ fresh_in HN).
    unfold createInputs.
    rewrite (proj2 (Blockio_facts.allDimensionLess_Forall (SIUnit.generateNSizeArray N))).
    - destruct (Blockio_facts.many_not_one_nor_none N HN) as [-> _].
      rewrite (proj2 (Nat.ltb_lt 1 N) HN). simpl.
      rewrite fmap_replicate. reflexivity.
    - rewrite SIUnit_more.generateNSizeArray_replicate. apply Forall_replicate. reflexivity. }
  split; [exact Hin|].
  unfold getIn. rewrite Hin, (proj2 (Nat.ltb_lt 1 N) HN). reflexivity.
Qed.

Lemma default_units_give_runtime_access_witness :
  in_ Scenarios.two_plain
  = Array (replicate 2 (mkPort SIUnit.dimensionless Scenarios.stale (Some 1%N) 1))
  /\ getIn 2 Scenarios.two_plain 5
     = Throws (IndexOutOfBoundsFault
                 "Trying to get inexistent element of input vector in block 'blk'").
Proof.
  apply (default_units_give_runtime_access Z Z _ 2 2 (SIUnit.generateNSizeArray 2)
           Scenarios.stale Scenarios.stale 1%N "blk" 5).
  lia.
Defined.



End Blockio_more.

(** ** Mul and DeMux: construction, repetition, well-formedness *)

Module Blocks_more.
Import Control Blockio.


(** X11.  Running a multiplier again without touching its inputs changes
    nothing: a second [run()] returns the block the first one left. *)
Theorem Mul_run_twice :
  forall (In1T In2T OutT : Type) (mul : In1T -> In2T -> OutT)
         (m m' : Mul.Mul In1T In2T OutT),
    Mul.run mul m = Returns m' ->
    Mul.run mul m' = Returns m'.
Proof.
  intros In1T In2T OutT mul m m'.
  unfold Mul.run, Mul.write_out, mbind, outcome_bind, bind.
  destruct (out (Mul.base m)) as [|o|ps|ps] eqn:Ho; try discriminate.
  simpl. intros [= <-]. simpl. reflexivity.
Qed.

Lemma Mul_run_twice_witness :
  Mul.run PrimFloat.mul
    (Mul.mkMul (mkBlockio 3%N "mul" Empty
                  (Single (mkPort SIUnit.dimensionless
                             (mkSignal (3 * 4)%float (Some 10%N)) (Some 3%N) 1)))
       (Mul.in1 Scenarios.multiplier) (Mul.in2 Scenarios.multiplier))
  = Returns
      (Mul.mkMul (mkBlockio 3%N "mul" Empty
                    (Single (mkPort SIUnit.dimensionless
                               (mkSignal (3 * 4)%float (Some 10%N)) (Some 3%N) 1)))
         (Mul.in1 Scenarios.multiplier) (Mul.in2 Scenarios.multiplier)).
Proof.
  apply (Mul_run_twice float float float PrimFloat.mul Scenarios.multiplier).
  reflexivity.
Defined.

(** A round of the demultiplexer on an output that already holds the
    component and the timestamp of the input changes nothing. *)
Lemma DeMux_body_fixed {T C : Type} (component : C -> nat -> T) (i : nat)
  (d : Blockio C T) (inp : Input C) (outs : list (Output T)) :
  in_ d = Single inp -> out d = Array outs ->
  (forall o, outs !! i = Some o ->
     getValue (getSignal o) = component (getValue (getSignal inp)) i
     /\ getTimestamp (getSignal o) = getTimestamp (getSignal inp)) ->
  DeMux.body component i d = Returns d.
Proof.
  intros Hin Hout Hset.
  unfold DeMux.body, DeMux.read_in, DeMux.write_out, mbind, outcome_bind, bind.
  rewrite Hin, Hout. simpl.
  destruct d as [self name ins os]. simpl in *. subst ins os.
  do 3 f_equal. apply list_eq. intros j.
  destruct (decide (i = j)) as [->|Hne].
  - rewrite !list_lookup_alter_eq.
    destruct (outs !! j) as [o|] eqn:Ho; [|reflexivity].
    destruct (Hset o eq_refl) as [Hv Ht]. simpl.
    destruct o as [u [v ts] ow c]. unfold getValue, getTimestamp, getSignal in *.
    simpl in *. subst v ts. reflexivity.
  - rewrite !list_lookup_alter_ne by assumption. reflexivity.
Qed.

(** X12.  Running a demultiplexer again without touching its input changes
    nothing: a second [run()] returns the block the first one left. *)
Theorem DeMux_run_twice :
  forall (T C : Type) (component : C -> nat -> T) (N : nat) (d d' : Blockio C T),
    DeMux.run component N d = Returns d' ->
    DeMux.run component N d' = Returns d'.
Proof.
  intros T C component N d d' Hrun.
  unfold DeMux.run in Hrun.
  destruct (in_ d) as [|inp|ins|ins] eqn:Hin; try discriminate.
  destruct (out d) as [|o|outs|outs] eqn:Hout; try discriminate.
  destruct (DeMux_facts.for_loop_invariant (DeMux.body component)
              (DeMux.rounds_done component d inp outs) N 0 d) as (s & Hs & Hdone).
  { intros i s0 _ Hs0. apply DeMux_facts.rounds_done_step; assumption. }
  { apply DeMux_facts.rounds_done_start. exact Hout. }
  rewrite Hs in Hrun. injection Hrun as ->.
  destruct Hdone as (_ & _ & Hin' & outs' & Hout' & Hlen' & _ & Hall).
  rewrite Hin in Hin'.
  unfold DeMux.run. rewrite Hin', Hout'.
  destruct (DeMux_facts.for_loop_invariant (DeMux.body component)
              (fun _ s0 => s0 = d') N 0 d') as (s' & Hs' & ->); [| reflexivity | exact Hs'].
  intros i s0 Hi ->. exists d'. split; [|reflexivity].
  apply (DeMux_body_fixed component i d' inp outs' Hin' Hout').
  intros o Ho.
  assert (Hilen : i < length outs).
  { rewrite <- Hlen'. apply lookup_lt_is_Some_1. eexists. exact Ho. }
  destruct (Hall i) as (o' & Ho' & Hv & Ht); [lia | exact Hilen |].
  rewrite Ho in Ho'. injection Ho' as <-. split; assumption.
Qed.

Lemma DeMux_run_twice_witness :
  DeMux.run Scenarios.entry 3
    (mkBlockio 4%N "demux"
       (Single (mkPort SIUnit.dimensionless
                  (mkSignal [1%Z; 2%Z; 3%Z] (Some 5%N)) (Some 4%N) 1))
       (Array [mkPort SIUnit.dimensionless (mkSignal 1%Z (Some 5%N)) (Some 4%N) 1;
               mkPort SIUnit.dimensionless (mkSignal 2%Z (Some 5%N)) (Some 4%N) 1;
               mkPort SIUnit.dimensionless (mkSignal 3%Z (Some 5%N)) (Some 4%N) 1]))
  = Returns
      (mkBlockio 4%N "demux"
         (Single (mkPort SIUnit.dimensionless
                    (mkSignal [1%Z; 2%Z; 3%Z] (Some 5%N)) (Some 4%N) 1))
         (Array [mkPort SIUnit.dimensionless (mkSignal 1%Z (Some 5%N)) (Some 4%N) 1;
                 mkPort SIUnit.dimensionless (mkSignal 2%Z (Some 5%N)) (Some 4%N) 1;
                 mkPort SIUnit.dimensionless (mkSignal 3%Z (Some 5%N)) (Some 4%N) 1])).
Proof.
  apply (DeMux_run_twice Z (list Z) Scenarios.entry 3 Scenarios.demux3).
  reflexivity.
Defined.





End Blocks_more.

(** ** ScalableInput: how the setters compose *)

Module ScalableInput_more.
Import ScalableInput.

(** X14.  The setters of a [ScalableInput] act on separate members: two
    different setters commute, a second call of the same setter overrides
    the first, writing back what the getter returned changes nothing, and
    no setter touches the [id] and the [libHandle] given to the base
    class. *)
Theorem setters_compose :
  forall (T : Type) (s : ScalableInput T) (a b : T) (u u' : SIUnit.t),
    (setScale a (setOffset b s) = setOffset b (setScale a s)
     /\ setScale a (setUnit u s) = setUnit u (setScale a s)
     /\ setScale a (setMinIn b s) = setMinIn b (setScale a s)
     /\ setScale a (setMaxIn b s) = setMaxIn b (setScale a s)
     /\ setOffset a (setUnit u s) = setUnit u (setOffset a s)
     /\ setOffset a (setMinIn b s) = setMinIn b (setOffset a s)
     /\ setOffset a (setMaxIn b s) = setMaxIn b (setOffset a s)
     /\ setUnit u (setMinIn b s) = setMinIn b (setUnit u s)
     /\ setUnit u (setMaxIn b s) = setMaxIn b (setUnit u s)
     /\ setMinIn a (setMaxIn b s) = setMaxIn b (setMinIn a s))
    /\ (setScale a (setScale b s) = setScale a s
     /\ setOffset a (setOffset b s) = setOffset a s
     /\ setUnit u (setUnit u' s) = setUnit u s
     /\ setMinIn a (setMinIn b s) = setMinIn a s
     /\ setMaxIn a (setMaxIn b s) = setMaxIn a s)
    /\ (setScale (getScale s) s = s
     /\ setOffset (getOffset s) s = s
     /\ setUnit (getUnit s) s = s
     /\ setMinIn (getMinIn s) s = s
     /\ setMaxIn (getMaxIn s) s = s)
    /\ (id (setScale a s) = id s /\ libHandle (setScale a s) = libHandle s
     /\ id (setOffset a s) = id s /\ libHandle (setOffset a s) = libHandle s
     /\ id (setUnit u s) = id s /\ libHandle (setUnit u s) = libHandle s
     /\ id (setMinIn a s) = id s /\ libHandle (setMinIn a s) = libHandle s
     /\ id (setMaxIn a s) = id s /\ libHandle (setMaxIn a s) = libHandle s).
Proof.
  intros T s a b u u'. destruct s as [i h sc off un mn mx].
  unfold getScale, getOffset, getUnit, getMinIn, getMaxIn; simpl.
  repeat split.
Qed.

End ScalableInput_more.

(** ** HALFeatures: the three tables *)

Module HALFeatures_facts.
Import HALFeatures.

(** X15.  The table of channel directions and the table of channel types
    list the same seven names: a channel name has a direction exactly when
    it has a type. *)
Theorem channel_tables_list_the_same_names :
  dom HALFeatures.directionOfChannel = dom HALFeatures.typeOfChannel
  /\ size HALFeatures.directionOfChannel = 7
  /\ size HALFeatures.typeOfChannel = 7
  /\ forall name : string,
       is_Some (HALFeatures.directionOfChannel !! name)
       <-> is_Some (HALFeatures.typeOfChannel !! name).
Proof.
  assert (Hdom : dom HALFeatures.directionOfChannel = dom HALFeatures.typeOfChannel)
    by (vm_compute; reflexivity).
  split; [exact Hdom|]. split; [reflexivity|]. split; [reflexivity|].
  intros name. rewrite <- !elem_of_dom, Hdom. reflexivity.
Qed.

(** X16.  The table of unit names is one-to-one, and none of its units is
    the dimensionless unit: two names that denote the same unit are the
    same name, and a unit looked up by name never compares equal to
    [SIUnit::create()]. *)
Theorem unit_names_are_one_to_one :
  (forall (n1 n2 : string) (u : SIUnit.t),
      HALFeatures.typeOfUnit !! n1 = Some u ->
      HALFeatures.typeOfUnit !! n2 = Some u -> n1 = n2)
  /\ (forall (n : string) (u : SIUnit.t),
      HALFeatures.typeOfUnit !! n = Some u ->
      SIUnit.eqb u SIUnit.dimensionless = false)
  /\ size HALFeatures.typeOfUnit = 5.
Proof.
  assert (H1 : map_Forall (fun n1 u1 =>
                 map_Forall (fun n2 u2 => u1 = u2 -> n1 = n2) HALFeatures.typeOfUnit)
                 HALFeatures.typeOfUnit).
  { apply (bool_decide_unpack _). vm_compute. exact I. }
  assert (H2 : map_Forall (fun (_ : string) u =>
                 SIUnit.eqb u SIUnit.dimensionless = false) HALFeatures.typeOfUnit).
  { apply (bool_decide_unpack _). vm_compute. exact I. }
  split; [|split; [|reflexivity]].
  - intros n1 n2 u Hn1 Hn2. exact (H1 n1 u Hn1 n2 u Hn2 eq_refl).
  - intros n u Hn. exact (H2 n u Hn).
Qed.

End HALFeatures_facts.
